(** * webborer/client: the authenticating HTTP client

    A shallow embedding of [client/client.go] and of the pieces of the Go
    standard library it calls ([strings.SplitN], [strings.ToLower],
    [base64.StdEncoding.EncodeToString], [http.Header]), followed by the
    properties of [RequestURL], [addAuthHeader], [getBasicAuthStr] and
    [SetCheckRedirect].

    Go strings are byte strings: [string] below is a sequence of bytes
    ([ascii] is one byte). *)

From Stdlib Require Import NArith ZArith Ascii String List Bool Lia.
From stdpp Require Import base option strings gmap fin_maps.

Import ListNotations.
Local Open Scope string_scope.
Local Open Scope list_scope.
Local Open Scope Z_scope.

(** ** Bytes *)

Definition byte_val (c : ascii) : N := N_of_ascii c.

Definition is_upper (c : ascii) : bool :=
  ((65 <=? byte_val c) && (byte_val c <=? 90))%N.

Definition is_lower (c : ascii) : bool :=
  ((97 <=? byte_val c) && (byte_val c <=? 122))%N.

Definition is_digit (c : ascii) : bool :=
  ((48 <=? byte_val c) && (byte_val c <=? 57))%N.

(** [c += 'a' - 'A'] on an upper-case ASCII letter. *)
Definition lower_byte (c : ascii) : ascii :=
  if is_upper c then ascii_of_N (byte_val c + 32) else c.

(** [c -= 'a' - 'A'] on a lower-case ASCII letter. *)
Definition upper_byte (c : ascii) : ascii :=
  if is_lower c then ascii_of_N (byte_val c - 32) else c.

Definition byte_is (c : ascii) (n : N) : bool := (byte_val c =? n)%N.

(** ** package strings *)

(** [strings.ToLower].  An all-ASCII string is lowered byte by byte.  A
    string with a byte above 0x7F is lowered rune by rune through
    [unicode.ToLower]; exactly two runes outside ASCII have an ASCII letter
    as their lower case, U+0130 (bytes C4 B0, lowered to [i]) and U+212A
    (bytes E2 84 AA, lowered to [k]), and both are mapped here as Go maps
    them.  Every other byte above 0x7F is kept: Go writes a rune outside
    ASCII in its place (the lowered rune, or U+FFFD for a byte that is not
    UTF-8), so comparing the result with an ASCII literal, the one use
    client.go makes of it, gives the answer Go gives. *)
Fixpoint ToLower (s : string) : string :=
  match s with
  | EmptyString => EmptyString
  | String c rest =>
      if (byte_val c <? 128)%N then String (lower_byte c) (ToLower rest)
      else
        match rest with
        | String d rest1 =>
            if byte_is c 196 && byte_is d 176 then String "i" (ToLower rest1)
            else
              match rest1 with
              | String e rest2 =>
                  if byte_is c 226 && byte_is d 132 && byte_is e 170
                  then String "k" (ToLower rest2)
                  else String c (ToLower rest)
              | EmptyString => String c (ToLower rest)
              end
        | EmptyString => String c EmptyString
        end
  end.

(** [strings.HasPrefix]. *)
Fixpoint HasPrefix (s pre : string) {struct pre} : bool :=
  match pre, s with
  | EmptyString, _ => true
  | String _ _, EmptyString => false
  | String p pre', String c s' => if Ascii.eqb p c then HasPrefix s' pre' else false
  end.

(** [strings.Index]: the offset of the first occurrence of [sep] in [s];
    [None] is Go's -1. *)
Fixpoint Index (s sep : string) : option nat :=
  if HasPrefix s sep then Some O
  else match s with
       | EmptyString => None
       | String _ s' => S <$> Index s' sep
       end.

(** [s[n:]]. *)
Fixpoint drop_bytes (n : nat) (s : string) : string :=
  match n, s with
  | O, _ => s
  | S _, EmptyString => EmptyString
  | S k, String _ s' => drop_bytes k s'
  end.

(** [s[:n]]. *)
Fixpoint take_bytes (n : nat) (s : string) : string :=
  match n, s with
  | O, _ => EmptyString
  | S _, EmptyString => EmptyString
  | S k, String c s' => String c (take_bytes k s')
  end.

(** The loop of [genSplit]: cut at [sep] while fewer than [fuel] pieces
    were cut, then the rest of the string is the last piece. *)
Fixpoint split_loop (fuel : nat) (s sep : string) : list string :=
  match fuel with
  | O => [s]
  | S k =>
      match Index s sep with
      | None => [s]
      | Some m => take_bytes m s :: split_loop k (drop_bytes (m + String.length sep) s) sep
      end
  end.

(** [explode], on byte strings: one piece per byte, at most [n] pieces. *)
Fixpoint explode (fuel : nat) (s : string) : list string :=
  match s with
  | EmptyString => []
  | String c s' =>
      match fuel with
      | O => [s]
      | S k => String c EmptyString :: explode k s'
      end
  end.

(** [strings.SplitN(s, sep, n)].  With [n = 0] the result is nil; with
    [n < 0] every occurrence cuts; with [n > 0] at most [n] pieces are
    returned, the last one being the unsplit remainder.  (With an empty
    separator Go cuts after each UTF-8 sequence; [explode] cuts after each
    byte.  client.go always passes a one-byte separator.) *)
Definition SplitN (s sep : string) (n : Z) : list string :=
  if n =? 0 then []
  else if String.eqb sep EmptyString then
    (if n <? 0 then explode (String.length s) s
     else explode (Z.to_nat n - 1) s)
  else
    let len1 := Z.of_nat (String.length s) + 1 in
    let n := if n <? 0 then len1 else n in
    let n := if len1 <? n then len1 else n in
    split_loop (Z.to_nat (n - 1)) s sep.

(** The scheme token of a challenge, in the words of the specification:
    the text before the first space. *)
Fixpoint scheme_token (h : string) : string :=
  match h with
  | EmptyString => EmptyString
  | String c rest =>
      if Ascii.eqb c " " then EmptyString else String c (scheme_token rest)
  end.

(** Comparison of tokens the way HTTP compares scheme names: bytes below
    0x80 only matter, and only the 26 letters fold. *)
Definition is_ascii (c : ascii) : bool := (byte_val c <? 128)%N.

Fixpoint lower_ascii (s : string) : string :=
  match s with
  | EmptyString => EmptyString
  | String c rest => String (lower_byte c) (lower_ascii rest)
  end.

Definition EqualFold_ascii (a b : string) : bool :=
  String.eqb (lower_ascii a) (lower_ascii b).

(** ** package encoding/base64 *)

Definition encodeStd : string :=
  "ABCDEFGHIJKLMNOPQRSTUVWXYZabcdefghijklmnopqrstuvwxyz0123456789+/".

Definition StdPadding : ascii := "="%char.

(** [enc.encode[i & 0x3F]]. *)
Definition encode_at (i : N) : ascii :=
  match String.get (N.to_nat (N.land i 63)) encodeStd with
  | Some c => c
  | None => StdPadding
  end.

(** [base64.StdEncoding.EncodeToString]: three bytes give four letters;
    one or two remaining bytes give two or three letters and padding. *)
Fixpoint EncodeToString (src : string) : string :=
  match src with
  | EmptyString => EmptyString
  | String a EmptyString =>
      let val := N.shiftl (byte_val a) 16 in
      String (encode_at (N.shiftr val 18))
        (String (encode_at (N.shiftr val 12))
           (String StdPadding (String StdPadding EmptyString)))
  | String a (String b EmptyString) =>
      let val := N.lor (N.shiftl (byte_val a) 16) (N.shiftl (byte_val b) 8) in
      String (encode_at (N.shiftr val 18))
        (String (encode_at (N.shiftr val 12))
           (String (encode_at (N.shiftr val 6)) (String StdPadding EmptyString)))
  | String a (String b (String c rest)) =>
      let val := N.lor (N.lor (N.shiftl (byte_val a) 16) (N.shiftl (byte_val b) 8))
                       (byte_val c) in
      String (encode_at (N.shiftr val 18))
        (String (encode_at (N.shiftr val 12))
           (String (encode_at (N.shiftr val 6))
              (String (encode_at val) (EncodeToString rest))))
  end.

(** A letter of the standard alphabet, or the padding. *)
Definition base64_byte (c : ascii) : bool :=
  is_upper c || is_lower c || is_digit c
  || Ascii.eqb c "+" || Ascii.eqb c "/" || Ascii.eqb c StdPadding.

(** ** package net/textproto and net/http: headers *)

(** The bytes allowed in a header field name (an RFC 7230 token). *)
Definition validHeaderFieldByte (c : ascii) : bool :=
  is_upper c || is_lower c || is_digit c
  || existsb (Ascii.eqb c) (list_ascii_of_string "!#$%&'*+-.^_`|~").

Fixpoint all_bytes (p : ascii -> bool) (s : string) : bool :=
  match s with
  | EmptyString => true
  | String c rest => p c && all_bytes p rest
  end.

(** The rewriting loop of [canonicalMIMEHeaderKey]: upper case for the
    first letter and for a letter after a dash, lower case elsewhere. *)
Fixpoint canonical_loop (upper : bool) (s : string) : string :=
  match s with
  | EmptyString => EmptyString
  | String c rest =>
      let c' := if upper then upper_byte c else lower_byte c in
      String c' (canonical_loop (Ascii.eqb c' "-") rest)
  end.

(** [textproto.CanonicalMIMEHeaderKey]: a key with a byte that is not
    allowed in a field name is returned as it is. *)
Definition CanonicalMIMEHeaderKey (s : string) : string :=
  if all_bytes validHeaderFieldByte s then canonical_loop true s else s.

(** [http.Header] is [map[string][]string]. *)
Abbreviation Header := (gmap string (list string)).

(** [h.Get(key)]: the first value stored under the canonical form of
    [key], or the empty string. *)
Definition Header_Get (h : Header) (key : string) : string :=
  match h !! CanonicalMIMEHeaderKey key with
  | Some (v :: _) => v
  | _ => EmptyString
  end.

(** [h.Set(key, value)]. *)
Definition Header_Set (h : Header) (key value : string) : Header :=
  <[CanonicalMIMEHeaderKey key := [value]]> h.

(** [h.Add(key, value)]. *)
Definition Header_Add (h : Header) (key value : string) : Header :=
  let k := CanonicalMIMEHeaderKey key in
  <[k := default [] (h !! k) ++ [value]]> h.

(** The Go [error] values that occur here are observed through their
    message; [None] is the nil error. *)
Abbreviation error := string (only parsing).

(** [*url.URL], observed through [u.String()]. *)
Record URL := { URL_String : string }.

(** [*http.Request], as far as this package builds it. *)
Record Request := {
  req_Method : string;
  req_URL : string;
  req_Header : Header
}.

(** [*http.Response]. *)
Record Response := {
  StatusCode : Z;
  resp_Status : string;
  resp_Header : Header;
  resp_Body : string
}.

(** What [Do] hands back: [(resp, err)], either of which may be nil. *)
Abbreviation DoResult := (option Response * option error)%type.

(** The two log levels the package uses. *)
Inductive LogLevel := LogInfo | LogError.

(** Calls that leave the package, in the order they are made. *)
Inductive Event :=
| Sent (req : Request)                        (* c.Client.Do(req) *)
| Logged (level : LogLevel) (format : string) (* logging.Logf(level, format) *)
| Encoded (src : string).                     (* base64 ... EncodeToString(src) *)

Definition sends (t : list Event) : list Request :=
  omap (fun e => match e with Sent r => Some r | _ => None end) t.

Definition logs (t : list Event) : list (LogLevel * string) :=
  omap (fun e => match e with Logged l f => Some (l, f) | _ => None end) t.

Definition encodings (t : list Event) : list string :=
  omap (fun e => match e with Encoded s => Some s | _ => None end) t.

(** [validMethod] of net/http. *)
Definition validMethod (method : string) : bool :=
  negb (String.eqb method EmptyString) && all_bytes validHeaderFieldByte method.

(** ** package client *)

(** What the package is run against: the types of redirect policies (Go
    function values from the new request and the requests made so far to
    an error, nil included), of what an [http.Client] holds besides its
    policy (transport, cookie jar, timeout) together with the network
    behind it, and of any other implementer of [httpClientInt] (the
    interface exists so that a mock can be substituted); whether [url.Parse] accepts a text ([http.NewRequest]
    fails when it does not); and the method [Do] of the two kinds of
    executor. *)
Class Env := {
  Policy : Type;
  Net : Type;
  Mock : Type;
  url_Parse_ok : string -> bool;
  http_Do : Policy -> Net -> Request -> Net * DoResult;
  mock_Do : Mock -> Request -> Mock * DoResult
}.

Section Client.

Context `{Env}.

(** [*http.Client]. *)
Record http_Client := {
  CheckRedirect : Policy;
  net : Net
}.

(** A value of the interface [httpClientInt]: the dynamic type is
    [*http.Client] or something else. *)
Inductive httpClientInt :=
| Concrete (cli : http_Client)
| Substitute (m : Mock).

Definition Do (e : httpClientInt) (req : Request) : httpClientInt * DoResult :=
  match e with
  | Concrete cli =>
      let '(n, r) := http_Do (CheckRedirect cli) (net cli) req in
      (Concrete {| CheckRedirect := CheckRedirect cli; net := n |}, r)
  | Substitute m =>
      let '(m', r) := mock_Do m req in (Substitute m', r)
  end.

Record httpClient := {
  Client : httpClientInt;
  UserAgent : string;
  HTTPUsername : string;
  HTTPPassword : string;
  basicAuthStr : string
}.

Definition set_Client (e : httpClientInt) (c : httpClient) : httpClient :=
  {| Client := e; UserAgent := UserAgent c; HTTPUsername := HTTPUsername c;
     HTTPPassword := HTTPPassword c; basicAuthStr := basicAuthStr c |}.

Definition set_basicAuthStr (s : string) (c : httpClient) : httpClient :=
  {| Client := Client c; UserAgent := UserAgent c; HTTPUsername := HTTPUsername c;
     HTTPPassword := HTTPPassword c; basicAuthStr := s |}.

(** *** Methods as state transformers

    A method with receiver [c *httpClient] takes the client, and gives
    its result ([None] when it panics), the client as it left it, and
    the calls it made. *)
Definition M (A : Type) : Type := httpClient -> option A * httpClient * list Event.

Definition ret {A} (a : A) : M A := fun c => (Some a, c, []).

Definition bind {A B} (m : M A) (k : A -> M B) : M B := fun c =>
  match m c with
  | (None, c1, t1) => (None, c1, t1)
  | (Some a, c1, t1) =>
      let '(b, c2, t2) := k a c1 in (b, c2, t1 ++ t2)
  end.

Definition panic {A} : M A := fun c => (None, c, []).

Definition field {A} (f : httpClient -> A) : M A := fun c => (Some (f c), c, []).

Definition update (f : httpClient -> httpClient) : M unit := fun c => (Some tt, f c, []).

Definition emit (e : Event) : M unit := fun c => (Some tt, c, [e]).

Notation "x <- m ;; k" := (bind m (fun x => k))
  (at level 100, m at next level, right associativity).

(** [http.NewRequest(method, urlStr, nil)]; [None] is the nil request
    returned with an error. *)
Definition NewRequest (method urlStr : string) : option Request :=
  let method := if String.eqb method EmptyString then "GET" else method in
  if validMethod method && url_Parse_ok urlStr
  then Some {| req_Method := method; req_URL := urlStr; req_Header := ∅ |}
  else None.

(** [req.Header.Set(key, value)] and [req.Header.Add(key, value)]. *)
Definition req_Header_Set (req : Request) (key value : string) : Request :=
  {| req_Method := req_Method req; req_URL := req_URL req;
     req_Header := Header_Set (req_Header req) key value |}.

Definition req_Header_Add (req : Request) (key value : string) : Request :=
  {| req_Method := req_Method req; req_URL := req_URL req;
     req_Header := Header_Add (req_Header req) key value |}.

(** [c.Client.Do(req)]. *)
Definition Client_Do (req : Request) : M DoResult := fun c =>
  let '(e, r) := Do (Client c) req in
  (Some r, set_Client e c, [Sent req]).

(** [logging.Logf(level, format)]. *)
Definition Logf (level : LogLevel) (format : string) : M unit :=
  emit (Logged level format).

(** [base64.StdEncoding.EncodeToString([]byte(s))]. *)
Definition base64_EncodeToString (s : string) : M string :=
  _ <- emit (Encoded s) ;; ret (EncodeToString s).

(** [pieces[i]]; out of range panics. *)
Definition index {A} (l : list A) (i : nat) : M A :=
  match l !! i with
  | Some a => ret a
  | None => panic
  end.

(** client.go, lines 113-120. *)
Definition getBasicAuthStr : M string :=
  cached <- field basicAuthStr ;;
  if negb (String.eqb cached EmptyString) then ret cached
  else
    user <- field HTTPUsername ;;
    pass <- field HTTPPassword ;;
    let userpass := user +:+ ":" +:+ pass in
    enc <- base64_EncodeToString userpass ;;
    _ <- update (set_basicAuthStr enc) ;;
    field basicAuthStr.

(** client.go, lines 103-110.  The request is changed in place in Go; here
    the changed request is returned next to the error. *)
Definition addAuthHeader (req : Request) (authHeader : string)
  : M (Request * option error) :=
  let pieces := SplitN authHeader " " 2 in
  scheme <- index pieces 0 ;;
  if String.eqb (ToLower scheme) "basic" then
    auth <- getBasicAuthStr ;;
    ret (req_Header_Add req "Authorization" ("Basic " +:+ auth), None)
  else
    ret (req, Some ("Unsupported WWW-Authenticate Method: " +:+ scheme)).

(** client.go, lines 87-91.  A nil request from [NewRequest] makes
    [req.Header] panic. *)
Definition makeRequest (u : URL) (method : string) : M Request :=
  match NewRequest method (URL_String u) with
  | None => panic
  | Some req =>
      ua <- field UserAgent ;;
      ret (req_Header_Set req "User-Agent" ua)
  end.

(** client.go, lines 53-84.  A nil response with a nil error makes
    [resp.StatusCode] panic. *)
Definition RequestURL (u : URL) : M DoResult :=
  let method := "GET" in
  req <- makeRequest u method ;;
  r1 <- Client_Do req ;;
  let '(resp, err) := r1 in
  match err with
  | Some e => ret (resp, Some e)
  | None =>
      match resp with
      | None => panic
      | Some r =>
          if StatusCode r =? 401 then
            let authHeader := Header_Get (resp_Header r) "WWW-Authenticate" in
            if String.eqb authHeader EmptyString then ret (resp, None)
            else
              user <- field HTTPUsername ;;
              pass <- field HTTPPassword ;;
              if String.eqb user EmptyString && String.eqb pass EmptyString
              then ret (resp, None)
              else
                req <- makeRequest u method ;;
                a <- addAuthHeader req authHeader ;;
                let '(req, err) := a in
                match err with
                | Some e =>
                    _ <- Logf LogInfo e ;;
                    ret (resp, None)
                | None =>
                    r2 <- Client_Do req ;;
                    let '(resp, err) := r2 in
                    match err with
                    | Some e => ret (resp, Some e)
                    | None => ret (resp, None)
                    end
                end
          else ret (resp, None)
      end
  end.

(** client.go, lines 93-100. *)
Definition SetCheckRedirect (checker : Policy) : M unit :=
  e <- field Client ;;
  match e with
  | Concrete cli =>
      update (set_Client (Concrete {| CheckRedirect := checker; net := net cli |}))
  | Substitute _ =>
      Logf LogError "Unable to set CheckRedirect, type assertion failed."
  end.

(** *** Vocabulary of the properties *)

(** [username + ":" + password]. *)
Definition userpass (c : httpClient) : string :=
  HTTPUsername c +:+ ":" +:+ HTTPPassword c.

(** The base64 encoding of [username + ":" + password]. *)
Definition basic_credentials (c : httpClient) : string :=
  EncodeToString (userpass c).

(** The cached string is empty or is the encoding of the credentials. *)
Definition cache_ok (c : httpClient) : Prop :=
  basicAuthStr c = EmptyString \/ basicAuthStr c = basic_credentials c.

(** No user name and no password. *)
Definition no_credentials (c : httpClient) : Prop :=
  HTTPUsername c = EmptyString /\ HTTPPassword c = EmptyString.

(** The request [makeRequest] builds for a URL that parses: a GET for
    the URL whose only header is the user agent. *)
Definition GET_request (c : httpClient) (u : URL) : Request :=
  req_Header_Set
    {| req_Method := "GET"; req_URL := URL_String u; req_Header := ∅ |}
    "User-Agent" (UserAgent c).

(** The request of the retry: the same with the credentials. *)
Definition retry_request (c : httpClient) (u : URL) : Request :=
  req_Header_Add (GET_request c u) "Authorization"
    ("Basic " +:+ basic_credentials c).

(** What is left of [RequestURL] once a 401 with a challenge reached a
    client with credentials. *)
Definition after_challenge (u : URL) (resp : Response) (authHeader : string)
  : M DoResult :=
  req <- makeRequest u "GET" ;;
  a <- addAuthHeader req authHeader ;;
  let '(req, err) := a in
  match err with
  | Some e => _ <- Logf LogInfo e ;; ret (Some resp, None)
  | None =>
      r2 <- Client_Do req ;;
      let '(resp, err) := r2 in
      match err with
      | Some e => ret (resp, Some e)
      | None => ret (resp, None)
      end
  end.

(** The operations of a client, and the client each leaves behind
    (also when it panics). *)
Inductive Op :=
| OpRequestURL (u : URL)
| OpAddAuthHeader (req : Request) (authHeader : string)
| OpGetBasicAuthStr
| OpSetCheckRedirect (checker : Policy).

Definition client_after {A} (m : M A) (c : httpClient) : httpClient := (m c).1.2.

Definition run_op (o : Op) (c : httpClient) : httpClient :=
  match o with
  | OpRequestURL u => client_after (RequestURL u) c
  | OpAddAuthHeader req h => client_after (addAuthHeader req h) c
  | OpGetBasicAuthStr => client_after getBasicAuthStr c
  | OpSetCheckRedirect p => client_after (SetCheckRedirect p) c
  end.

(** What a method may do to the client: the identity and the credentials
    stay, and the cache stays or goes from empty to the encoding. *)
Definition evolves (c c' : httpClient) : Prop :=
  UserAgent c' = UserAgent c
  /\ HTTPUsername c' = HTTPUsername c
  /\ HTTPPassword c' = HTTPPassword c
  /\ (basicAuthStr c' = basicAuthStr c
      \/ (basicAuthStr c = EmptyString /\ basicAuthStr c' = basic_credentials c)).

Definition steady {A} (m : M A) : Prop :=
  forall c, evolves c (client_after m c).

(** The states a client constructed as [c0] goes through. *)
Inductive reachable (c0 : httpClient) : httpClient -> Prop :=
| reachable_new : reachable c0 c0
| reachable_op c o : reachable c0 c -> reachable c0 (run_op o c).

(** *** The paths through RequestURL *)

(** What [getBasicAuthStr] answers: the cached string when there is one,
    the encoding otherwise; and the call to the encoder it makes. *)
Definition auth_string (c : httpClient) : string :=
  if String.eqb (basicAuthStr c) EmptyString then basic_credentials c
  else basicAuthStr c.

Definition auth_events (c : httpClient) : list Event :=
  if String.eqb (basicAuthStr c) EmptyString then [Encoded (userpass c)] else [].

(** The second request of a call. *)
Definition auth_request (c : httpClient) (u : URL) : Request :=
  req_Header_Add (GET_request c u) "Authorization" ("Basic " +:+ auth_string c).

(** The challenge of a response. *)
Definition challenge_of (resp : Response) : string :=
  Header_Get (resp_Header resp) "WWW-Authenticate".

(** The redirect policy an executor carries, when it is an http.Client. *)
Definition policy_of (e : httpClientInt) : option Policy :=
  match e with
  | Concrete cli => Some (CheckRedirect cli)
  | Substitute _ => None
  end.

(** The six ways a call of [RequestURL u] on [c] can go, each with the
    result ([None] for a panic), the client left behind and the calls
    made. *)
Inductive RequestURL_path (c : httpClient) (u : URL)
  : option DoResult * httpClient * list Event -> Prop :=
| path_bad_url :
    url_Parse_ok (URL_String u) = false ->
    RequestURL_path c u (None, c, [])
| path_first_error e1 got err :
    url_Parse_ok (URL_String u) = true ->
    Do (Client c) (GET_request c u) = (e1, (got, Some err)) ->
    RequestURL_path c u
      (Some (got, Some err), set_Client e1 c, [Sent (GET_request c u)])
| path_nil_response e1 :
    url_Parse_ok (URL_String u) = true ->
    Do (Client c) (GET_request c u) = (e1, (None, None)) ->
    RequestURL_path c u (None, set_Client e1 c, [Sent (GET_request c u)])
| path_final e1 resp :
    url_Parse_ok (URL_String u) = true ->
    Do (Client c) (GET_request c u) = (e1, (Some resp, None)) ->
    StatusCode resp <> 401 \/ challenge_of resp = EmptyString \/ no_credentials c ->
    RequestURL_path c u
      (Some (Some resp, None), set_Client e1 c, [Sent (GET_request c u)])
| path_unsupported e1 resp :
    url_Parse_ok (URL_String u) = true ->
    Do (Client c) (GET_request c u) = (e1, (Some resp, None)) ->
    StatusCode resp = 401 ->
    challenge_of resp <> EmptyString ->
    ~ no_credentials c ->
    ToLower (scheme_token (challenge_of resp)) <> "basic" ->
    RequestURL_path c u
      (Some (Some resp, None), set_Client e1 c,
       [Sent (GET_request c u);
        Logged LogInfo
          ("Unsupported WWW-Authenticate Method: "
           +:+ scheme_token (challenge_of resp))])
| path_retry e1 resp e2 r2 :
    url_Parse_ok (URL_String u) = true ->
    Do (Client c) (GET_request c u) = (e1, (Some resp, None)) ->
    StatusCode resp = 401 ->
    ~ no_credentials c ->
    ToLower (scheme_token (challenge_of resp)) = "basic" ->
    Do e1 (auth_request c u) = (e2, r2) ->
    RequestURL_path c u
      (Some r2, set_Client e2 (set_basicAuthStr (auth_string c) c),
       Sent (GET_request c u) :: auth_events c ++ [Sent (auth_request c u)]).

End Client.

(** ** A scripted executor

    A stand-in for the network: it answers each request with the next
    canned result, and with a transport error when none is left. *)
Definition scripted_Do (script : list DoResult) (req : Request)
  : list DoResult * DoResult :=
  match script with
  | [] => ([], (None, Some "no response left"))
  | r :: rest => (rest, r)
  end.

#[export] Instance scripted : Env := {|
  Policy := option string;
  Net := list DoResult;
  Mock := list DoResult;
  url_Parse_ok := fun _ => true;
  http_Do := fun _ => scripted_Do;
  mock_Do := scripted_Do
|}.

Definition response (status : Z) (h : Header) : Response :=
  {| StatusCode := status; resp_Status := EmptyString; resp_Header := h;
     resp_Body := EmptyString |}.

(** The mock that still has [script] to play, as an executor. *)
Definition mock (script : list DoResult) : httpClientInt (H := scripted) :=
  Substitute script.

(** A new client on the mock. *)
Definition mock_client (script : list DoResult) (user pass : string)
  : httpClient (H := scripted) :=
  {| Client := mock script; UserAgent := "webborer"; HTTPUsername := user;
     HTTPPassword := pass; basicAuthStr := EmptyString |}.

Definition example_url : URL := {| URL_String := "http://localhost/" |}.

Definition basic_challenge : Header := {[ "Www-Authenticate" := ["Basic realm=x"] ]}.

Definition digest_challenge : Header := {[ "Www-Authenticate" := ["Digest realm=x"] ]}.

(** Canned results. *)
Definition ok_200 : DoResult := (Some (response 200 ∅), None).

Definition challenge_basic : DoResult := (Some (response 401 basic_challenge), None).

Definition challenge_digest : DoResult := (Some (response 401 digest_challenge), None).

Definition challenge_bare : DoResult := (Some (response 401 ∅), None).

Definition refused : DoResult := (None, Some "dial tcp: connection refused").

(** A client on an [http.Client] with no redirect policy. *)
Definition concrete_client (script : list DoResult) : httpClient (H := scripted) :=
  {| Client := Concrete {| CheckRedirect := None; net := script |};
     UserAgent := "webborer"; HTTPUsername := "user"; HTTPPassword := "pass";
     basicAuthStr := EmptyString |}.

(** A client on the mock that has already encoded its credentials. *)
Definition filled_client (script : list DoResult) : httpClient (H := scripted) :=
  set_basicAuthStr "dXNlcjpwYXNz" (mock_client script "user" "pass").

(** The same executors with a parser that refuses the text of a URL whose
    host holds a space, as [url.Parse] does. *)
Definition strict : Env := {|
  Policy := option string;
  Net := list DoResult;
  Mock := list DoResult;
  url_Parse_ok := fun s => negb (String.eqb s "//a b");
  http_Do := fun _ => scripted_Do;
  mock_Do := scripted_Do
|}.

Definition strict_client (script : list DoResult) : httpClient (H := strict) :=
  {| Client := Substitute (H := strict) script; UserAgent := "webborer";
     HTTPUsername := "user"; HTTPPassword := "pass"; basicAuthStr := EmptyString |}.

Definition spaced_host_url : URL := {| URL_String := "//a b" |}.

(** A 401 whose challenge names the scheme BAS, U+0130, C. *)
Definition challenge_dotted_capital : DoResult :=
  (Some (response 401
           {[ "Www-Authenticate" := ["BAS" +:+ String (ascii_of_N 196)
                                       (String (ascii_of_N 176) "C realm=x")] ]}),
   None).

(** The token BAS, U+0130, C: five runes, six bytes. *)
Definition dotted_capital_token : string :=
  "BAS" +:+ String (ascii_of_N 196) (String (ascii_of_N 176) "C").

(** * Properties *)

(** ** The standard library pieces *)

Lemma EncodeToString_nonempty (s : string) :
  s <> EmptyString -> EncodeToString s <> EmptyString.
Proof.
  destruct s as [|a [|b [|c rest]]]; simpl; intros Hs; try discriminate.
  now elim Hs.
Qed.

Lemma eqb_empty_false (s : string) :
  s <> EmptyString -> String.eqb s EmptyString = false.
Proof. intros Hs. now apply String.eqb_neq. Qed.

Lemma HasPrefix_space (c : ascii) (rest : string) :
  HasPrefix (String c rest) " " = Ascii.eqb c " ".
Proof.
  cbn [HasPrefix]. rewrite (Ascii.eqb_sym " " c).
  destruct (Ascii.eqb c " "); [|reflexivity]. now destruct rest.
Qed.

(** Cutting at the first space, as [genSplit] does, gives the text before
    the first space. *)
Lemma Index_space (h : string) :
  match Index h " " with
  | None => scheme_token h = h
  | Some m => take_bytes m h = scheme_token h
  end.
Proof.
  induction h as [|c rest IH]; [reflexivity|].
  cbn [Index]. rewrite HasPrefix_space. cbn [scheme_token].
  destruct (Ascii.eqb c " "); [reflexivity|].
  destruct (Index rest " ") as [m|]; cbn; now rewrite IH.
Qed.

(** [strings.SplitN(h, " ", 2)] is never empty, and its first piece is the
    scheme token. *)
Lemma SplitN_scheme (h : string) :
  SplitN h " " 2 !! 0%nat = Some (scheme_token h).
Proof.
  unfold SplitN. cbn [Z.eqb Z.ltb Z.compare String.eqb Ascii.eqb Bool.eqb].
  destruct h as [|c rest]; [reflexivity|].
  cbn [String.length].
  destruct (Z.ltb_spec (Z.of_nat (S (String.length rest)) + 1) 2) as [Hlt|_]; [lia|].
  change (Z.to_nat (2 - 1)) with 1%nat. cbn [split_loop].
  pose proof (Index_space (String c rest)) as HI.
  destruct (Index (String c rest) " ") as [m|]; cbn [lookup list_lookup];
    now rewrite HI.
Qed.

Lemma encode_at_alphabet (i : N) : base64_byte (encode_at i) = true.
Proof.
  unfold encode_at.
  assert (N.to_nat (N.land i 63) < 64)%nat as Hlt.
  { change 63%N with (N.ones 6). rewrite N.land_ones.
    pose proof (N.mod_upper_bound i (2 ^ 6)%N) as Hb. cbn in Hb. lia. }
  revert Hlt. generalize (N.to_nat (N.land i 63)). intros n Hn.
  do 64 (destruct n as [|n]; [reflexivity|]). lia.
Qed.

Lemma all_bytes_4 (p : ascii -> bool) (a b c d : ascii) (rest : string) :
  p a = true -> p b = true -> p c = true -> p d = true ->
  all_bytes p rest = true ->
  all_bytes p (String a (String b (String c (String d rest)))) = true.
Proof.
  intros Ha Hb Hc Hd Hrest. cbn [all_bytes]. rewrite Ha, Hb, Hc, Hd. exact Hrest.
Qed.

Lemma StdPadding_alphabet : base64_byte StdPadding = true.
Proof. reflexivity. Qed.

(** The encoding is made of letters of the alphabet and padding only,
    whatever bytes go in. *)
Lemma EncodeToString_alphabet (s : string) :
  all_bytes base64_byte (EncodeToString s) = true.
Proof.
  enough (all_bytes base64_byte (EncodeToString s) = true
          /\ (forall a, all_bytes base64_byte (EncodeToString (String a s)) = true)
          /\ (forall a b,
                all_bytes base64_byte (EncodeToString (String a (String b s))) = true))
    as [Hs _] by exact Hs.
  induction s as [|c rest (IH0 & IH1 & IH2)].
  - split; [reflexivity|]. split.
    + intros a. cbn [EncodeToString].
      apply all_bytes_4; [apply encode_at_alphabet|apply encode_at_alphabet
                         |exact StdPadding_alphabet|exact StdPadding_alphabet
                         |reflexivity].
    + intros a b. cbn [EncodeToString].
      apply all_bytes_4; [apply encode_at_alphabet|apply encode_at_alphabet
                         |apply encode_at_alphabet|exact StdPadding_alphabet
                         |reflexivity].
  - split; [exact (IH1 c)|]. split; [intros a; exact (IH2 a c)|]. intros a b.
    cbn [EncodeToString].
    apply all_bytes_4; [apply encode_at_alphabet|apply encode_at_alphabet
                       |apply encode_at_alphabet|apply encode_at_alphabet
                       |exact IH0].
Qed.


Section Properties.

Context `{Env}.

Implicit Types (c : httpClient) (u : URL) (req : Request) (resp : Response).

Lemma userpass_nonempty c : userpass c <> EmptyString.
Proof. unfold userpass. now destruct (HTTPUsername c). Qed.

Lemma basic_credentials_nonempty c : basic_credentials c <> EmptyString.
Proof. apply EncodeToString_nonempty, userpass_nonempty. Qed.

Lemma set_basicAuthStr_same c : set_basicAuthStr (basicAuthStr c) c = c.
Proof. now destruct c. Qed.

(** ** getBasicAuthStr *)

Lemma getBasicAuthStr_cached c :
  basicAuthStr c <> EmptyString ->
  getBasicAuthStr c = (Some (basicAuthStr c), c, []).
Proof.
  intros Hc. unfold getBasicAuthStr, bind, field, ret.
  now rewrite (eqb_empty_false _ Hc).
Qed.

Lemma getBasicAuthStr_fresh c :
  basicAuthStr c = EmptyString ->
  getBasicAuthStr c
  = (Some (basic_credentials c), set_basicAuthStr (basic_credentials c) c,
     [Encoded (userpass c)]).
Proof.
  intros Hc. unfold getBasicAuthStr, bind, field, ret.
  rewrite Hc. reflexivity.
Qed.

(** On a client whose cache is sound the call gives the encoding and
    leaves the encoding in the cache. *)
Lemma getBasicAuthStr_sound c :
  cache_ok c ->
  exists t,
    getBasicAuthStr c
    = (Some (basic_credentials c), set_basicAuthStr (basic_credentials c) c, t)
    /\ sends t = [] /\ logs t = [].
Proof.
  intros [Hempty|Hfull].
  - exists [Encoded (userpass c)]. now rewrite getBasicAuthStr_fresh.
  - exists []. rewrite getBasicAuthStr_cached.
    + now rewrite <- Hfull, set_basicAuthStr_same.
    + rewrite Hfull. apply basic_credentials_nonempty.
Qed.

(** ** makeRequest *)

Lemma makeRequest_ok c u :
  url_Parse_ok (URL_String u) = true ->
  makeRequest u "GET" c = (Some (GET_request c u), c, []).
Proof.
  intros Hu. unfold makeRequest, NewRequest.
  change (String.eqb "GET" EmptyString) with false. cbv iota.
  change (validMethod "GET") with true. rewrite Hu. reflexivity.
Qed.

Lemma makeRequest_fails c u method :
  NewRequest method (URL_String u) = None ->
  makeRequest u method c = (None, c, []).
Proof. intros Hn. unfold makeRequest. now rewrite Hn. Qed.

(** ** addAuthHeader *)

Lemma addAuthHeader_basic req h c :
  ToLower (scheme_token h) = "basic" ->
  addAuthHeader req h c
  = let '(auth, c', t) := getBasicAuthStr c in
    (option_map
       (fun a => (req_Header_Add req "Authorization" ("Basic " +:+ a), None)) auth,
     c', t).
Proof.
  intros Hb. unfold addAuthHeader, index. rewrite SplitN_scheme.
  unfold bind at 1, ret at 1. cbv beta iota. rewrite Hb.
  change (String.eqb "basic" "basic") with true. cbv iota.
  unfold bind. destruct (getBasicAuthStr c) as [[[a|] c'] t];
    unfold ret; cbn [option_map app]; now rewrite ?app_nil_r.
Qed.

Lemma addAuthHeader_unsupported req h c :
  ToLower (scheme_token h) <> "basic" ->
  addAuthHeader req h c
  = (Some (req, Some ("Unsupported WWW-Authenticate Method: " +:+ scheme_token h)),
     c, []).
Proof.
  intros Hb. unfold addAuthHeader, bind, index. rewrite SplitN_scheme.
  unfold ret. apply String.eqb_neq in Hb. now rewrite Hb.
Qed.

Lemma Header_Add_same (hd : Header) (v : string) :
  Header_Add hd "Authorization" v !! "Authorization"
  = Some (default [] (hd !! "Authorization") ++ [v]).
Proof.
  unfold Header_Add. change (CanonicalMIMEHeaderKey "Authorization") with "Authorization".
  apply lookup_insert_eq.
Qed.

Lemma Header_Add_other (hd : Header) (v k : string) :
  k <> "Authorization" ->
  Header_Add hd "Authorization" v !! k = hd !! k.
Proof.
  intros Hk. unfold Header_Add.
  change (CanonicalMIMEHeaderKey "Authorization") with "Authorization".
  now apply lookup_insert_ne.
Qed.

(** ** RequestURL, path by path *)

Lemma Client_Do_run c req e r :
  Do (Client c) req = (e, r) ->
  Client_Do req c = (Some r, set_Client e c, [Sent req]).
Proof. intros HDo. unfold Client_Do. now rewrite HDo. Qed.

Lemma no_credentials_test c :
  String.eqb (HTTPUsername c) EmptyString && String.eqb (HTTPPassword c) EmptyString
  = true <-> no_credentials c.
Proof.
  unfold no_credentials. rewrite andb_true_iff, !String.eqb_eq. tauto.
Qed.

Lemma credentials_test c :
  ~ no_credentials c ->
  String.eqb (HTTPUsername c) EmptyString && String.eqb (HTTPPassword c) EmptyString
  = false.
Proof.
  intros Hc. apply not_true_is_false. now rewrite no_credentials_test.
Qed.

Lemma Header_Get_absent (hd : Header) (key : string) :
  hd !! CanonicalMIMEHeaderKey key = None -> Header_Get hd key = EmptyString.
Proof. intros Hk. unfold Header_Get. now rewrite Hk. Qed.

(** The first send fails: its result is the result. *)
Lemma RequestURL_first_error c u e1 (got : option Response) (err : error) :
  url_Parse_ok (URL_String u) = true ->
  Do (Client c) (GET_request c u) = (e1, (got, Some err)) ->
  RequestURL u c = (Some (got, Some err), set_Client e1 c, [Sent (GET_request c u)]).
Proof.
  intros Hu HDo. unfold RequestURL. unfold bind at 1.
  rewrite (makeRequest_ok _ _ Hu). unfold bind at 1.
  rewrite (Client_Do_run _ _ _ _ HDo). reflexivity.
Qed.

(** The first send answers with a status other than 401. *)
Lemma RequestURL_other_status c u e1 resp :
  url_Parse_ok (URL_String u) = true ->
  Do (Client c) (GET_request c u) = (e1, (Some resp, None)) ->
  StatusCode resp <> 401 ->
  RequestURL u c = (Some (Some resp, None), set_Client e1 c, [Sent (GET_request c u)]).
Proof.
  intros Hu HDo Hs. unfold RequestURL. unfold bind at 1.
  rewrite (makeRequest_ok _ _ Hu). unfold bind at 1.
  rewrite (Client_Do_run _ _ _ _ HDo). cbv beta iota.
  apply Z.eqb_neq in Hs. rewrite Hs. reflexivity.
Qed.

(** A 401 without a challenge. *)
Lemma RequestURL_no_challenge c u e1 resp :
  url_Parse_ok (URL_String u) = true ->
  Do (Client c) (GET_request c u) = (e1, (Some resp, None)) ->
  StatusCode resp = 401 ->
  Header_Get (resp_Header resp) "WWW-Authenticate" = EmptyString ->
  RequestURL u c = (Some (Some resp, None), set_Client e1 c, [Sent (GET_request c u)]).
Proof.
  intros Hu HDo Hs Hh. unfold RequestURL. unfold bind at 1.
  rewrite (makeRequest_ok _ _ Hu). unfold bind at 1.
  rewrite (Client_Do_run _ _ _ _ HDo). cbv beta iota.
  rewrite Hs, Hh. reflexivity.
Qed.

(** A 401 with a challenge, and no credentials to answer it. *)
Lemma RequestURL_no_credentials c u e1 resp :
  url_Parse_ok (URL_String u) = true ->
  Do (Client c) (GET_request c u) = (e1, (Some resp, None)) ->
  StatusCode resp = 401 ->
  no_credentials c ->
  RequestURL u c = (Some (Some resp, None), set_Client e1 c, [Sent (GET_request c u)]).
Proof.
  intros Hu HDo Hs Hc. unfold RequestURL. unfold bind at 1.
  rewrite (makeRequest_ok _ _ Hu). unfold bind at 1.
  rewrite (Client_Do_run _ _ _ _ HDo). cbv beta iota. rewrite Hs.
  change (401 =? 401) with true. cbv iota.
  destruct (String.eqb _ EmptyString); [reflexivity|].
  unfold bind, field. cbn [HTTPUsername HTTPPassword set_Client].
  apply no_credentials_test in Hc. rewrite Hc. reflexivity.
Qed.

Lemma RequestURL_challenged c u e1 resp :
  url_Parse_ok (URL_String u) = true ->
  Do (Client c) (GET_request c u) = (e1, (Some resp, None)) ->
  StatusCode resp = 401 ->
  Header_Get (resp_Header resp) "WWW-Authenticate" <> EmptyString ->
  ~ no_credentials c ->
  RequestURL u c
  = let '(r, c', t) :=
      after_challenge u resp (Header_Get (resp_Header resp) "WWW-Authenticate")
        (set_Client e1 c) in
    (r, c', Sent (GET_request c u) :: t).
Proof.
  intros Hu HDo Hs Hh Hc. unfold RequestURL. unfold bind at 1.
  rewrite (makeRequest_ok _ _ Hu). unfold bind at 1.
  rewrite (Client_Do_run _ _ _ _ HDo). cbv beta iota. rewrite Hs.
  change (401 =? 401) with true. cbv iota.
  rewrite (eqb_empty_false _ Hh).
  unfold bind at 1, field at 1. unfold bind at 1, field at 1.
  cbn [HTTPUsername HTTPPassword set_Client].
  rewrite (credentials_test _ Hc). unfold after_challenge.
  now destruct (bind (makeRequest u "GET") _ _) as [[r c'] t].
Qed.

Lemma after_challenge_unsupported c u resp h :
  url_Parse_ok (URL_String u) = true ->
  ToLower (scheme_token h) <> "basic" ->
  after_challenge u resp h c
  = (Some (Some resp, None), c,
     [Logged LogInfo ("Unsupported WWW-Authenticate Method: " +:+ scheme_token h)]).
Proof.
  intros Hu Hb. unfold after_challenge. unfold bind at 1.
  rewrite (makeRequest_ok _ _ Hu). unfold bind at 1.
  rewrite (addAuthHeader_unsupported _ _ _ Hb). reflexivity.
Qed.

Lemma after_challenge_basic c u resp h e2 (r2 : DoResult) :
  url_Parse_ok (URL_String u) = true ->
  cache_ok c ->
  ToLower (scheme_token h) = "basic" ->
  Do (Client c) (retry_request c u) = (e2, r2) ->
  exists t,
    after_challenge u resp h c
    = (Some r2, set_Client e2 (set_basicAuthStr (basic_credentials c) c), t)
    /\ sends t = [retry_request c u] /\ logs t = [].
Proof.
  intros Hu Hok Hb HDo. unfold after_challenge. unfold bind at 1.
  rewrite (makeRequest_ok _ _ Hu). unfold bind at 1.
  rewrite (addAuthHeader_basic _ _ _ Hb).
  destruct (getBasicAuthStr_sound c Hok) as (t & -> & Hs & Hl).
  cbn [option_map]. fold (retry_request c u). unfold bind at 1.
  rewrite (Client_Do_run (set_basicAuthStr (basic_credentials c) c) _ _ _ HDo).
  exists (t ++ [Sent (retry_request c u)]). split; [|split].
  - now destruct r2 as [got [err|]].
  - unfold sends in *. now rewrite omap_app, Hs.
  - unfold logs in *. now rewrite omap_app, Hl.
Qed.

Lemma basic_scheme_nonempty (h : string) :
  ToLower (scheme_token h) = "basic" -> h <> EmptyString.
Proof. intros Hb ->. discriminate Hb. Qed.

(** A 401 with a basic challenge reached a client with a credential: the
    result of the second send is the result. *)
Lemma RequestURL_retry c u e1 resp e2 (r2 : DoResult) :
  url_Parse_ok (URL_String u) = true ->
  cache_ok c ->
  Do (Client c) (GET_request c u) = (e1, (Some resp, None)) ->
  StatusCode resp = 401 ->
  ToLower (scheme_token (Header_Get (resp_Header resp) "WWW-Authenticate")) = "basic" ->
  ~ no_credentials c ->
  Do e1 (retry_request c u) = (e2, r2) ->
  exists t,
    RequestURL u c
    = (Some r2, set_Client e2 (set_basicAuthStr (basic_credentials c) c), t)
    /\ sends t = [GET_request c u; retry_request c u] /\ logs t = [].
Proof.
  intros Hu Hok HDo Hs Hb Hc HDo2.
  rewrite (RequestURL_challenged _ _ _ _ Hu HDo Hs (basic_scheme_nonempty _ Hb) Hc).
  destruct (after_challenge_basic (set_Client e1 c) u resp _ e2 r2 Hu Hok Hb HDo2)
    as (t & -> & Hsent & Hlog).
  exists (Sent (GET_request c u) :: t). split; [reflexivity|]. split.
  - unfold sends in *. cbn [omap list_omap]. now rewrite Hsent.
  - unfold logs in *. cbn [omap list_omap]. now rewrite Hlog.
Qed.

Lemma retry_request_Authorization c u :
  Header_Get (req_Header (retry_request c u)) "Authorization"
  = "Basic " +:+ EncodeToString (HTTPUsername c +:+ ":" +:+ HTTPPassword c).
Proof.
  unfold Header_Get. change (CanonicalMIMEHeaderKey "Authorization") with "Authorization".
  unfold retry_request, req_Header_Add. cbn [req_Header].
  rewrite Header_Add_same.
  unfold GET_request, req_Header_Set, Header_Set. cbn [req_Header].
  change (CanonicalMIMEHeaderKey "User-Agent") with "User-Agent".
  rewrite lookup_insert_ne by discriminate. rewrite lookup_empty. reflexivity.
Qed.

(** ** The claims about RequestURL *)

(** C1. When the first send is answered by a 401 whose WWW-Authenticate
    header has the scheme token basic, in any letter case, and the client
    has a user name or a password, RequestURL sends a second request
    whose Authorization header is the text Basic, a space, and the base64
    encoding of username:password, and it returns what the second send
    returned: that response with a nil error whenever the second send
    gave no error. *)
Theorem RequestURL_basic_retry c u e1 resp e2 (r2 : DoResult) :
  url_Parse_ok (URL_String u) = true ->
  cache_ok c ->
  Do (Client c) (GET_request c u) = (e1, (Some resp, None)) ->
  StatusCode resp = 401 ->
  ToLower (scheme_token (Header_Get (resp_Header resp) "WWW-Authenticate")) = "basic" ->
  ~ no_credentials c ->
  Do e1 (retry_request c u) = (e2, r2) ->
  exists c' t,
    RequestURL u c = (Some r2, c', t)
    /\ sends t = [GET_request c u; retry_request c u]
    /\ Header_Get (req_Header (retry_request c u)) "Authorization"
       = "Basic " +:+ EncodeToString (HTTPUsername c +:+ ":" +:+ HTTPPassword c)
    /\ (r2.2 = None -> RequestURL u c = (Some (r2.1, None), c', t)).
Proof.
  intros Hu Hok HDo Hs Hb Hc HDo2.
  destruct (RequestURL_retry c u e1 resp e2 r2 Hu Hok HDo Hs Hb Hc HDo2)
    as (t & Hrun & Hsent & _).
  eexists _, t. split; [exact Hrun|]. split; [exact Hsent|].
  split; [apply retry_request_Authorization|].
  intros Hnil. rewrite Hrun. destruct r2 as [got err]. cbn in Hnil. now subst.
Qed.

(** C2. When the first send succeeds with a status other than 401,
    RequestURL returns that very response with a nil error, and the
    executor was called exactly once. *)
Theorem RequestURL_passes_other_status c u e1 resp :
  url_Parse_ok (URL_String u) = true ->
  Do (Client c) (GET_request c u) = (e1, (Some resp, None)) ->
  StatusCode resp <> 401 ->
  exists c' t,
    RequestURL u c = (Some (Some resp, None), c', t)
    /\ sends t = [GET_request c u].
Proof.
  intros Hu HDo Hs. rewrite (RequestURL_other_status _ _ _ _ Hu HDo Hs).
  now eexists _, _.
Qed.

(** X13. When the first send is answered by a 401 with a challenge whose
    scheme token (the text before the first space) is not lowered to
    basic by strings.ToLower, and the client has a user name or a
    password, RequestURL logs the refusal once, calls the executor
    exactly once, and returns the 401 response it got with a nil
    error. *)
Theorem RequestURL_unsupported_scheme c u e1 resp :
  url_Parse_ok (URL_String u) = true ->
  Do (Client c) (GET_request c u) = (e1, (Some resp, None)) ->
  StatusCode resp = 401 ->
  Header_Get (resp_Header resp) "WWW-Authenticate" <> EmptyString ->
  ToLower (scheme_token (Header_Get (resp_Header resp) "WWW-Authenticate")) <> "basic" ->
  ~ no_credentials c ->
  exists c' t,
    RequestURL u c = (Some (Some resp, None), c', t)
    /\ sends t = [GET_request c u]
    /\ logs t
       = [(LogInfo,
           "Unsupported WWW-Authenticate Method: "
           +:+ scheme_token (Header_Get (resp_Header resp) "WWW-Authenticate"))].
Proof.
  intros Hu HDo Hs Hh Hb Hc.
  rewrite (RequestURL_challenged _ _ _ _ Hu HDo Hs Hh Hc).
  rewrite (after_challenge_unsupported _ _ _ _ Hu Hb). now eexists _, _.
Qed.

(** C4. A non-nil error from the executor, on the first send or on the
    retry, is returned to the caller together with the response that came
    with it, and no send follows it. *)
Theorem RequestURL_transport_error c u e1 (got : option Response) (err : error) :
  url_Parse_ok (URL_String u) = true ->
  (Do (Client c) (GET_request c u) = (e1, (got, Some err)) ->
   exists c' t,
     RequestURL u c = (Some (got, Some err), c', t)
     /\ sends t = [GET_request c u])
  /\ (forall resp e2,
        cache_ok c ->
        Do (Client c) (GET_request c u) = (e1, (Some resp, None)) ->
        StatusCode resp = 401 ->
        ToLower (scheme_token (Header_Get (resp_Header resp) "WWW-Authenticate"))
        = "basic" ->
        ~ no_credentials c ->
        Do e1 (retry_request c u) = (e2, (got, Some err)) ->
        exists c' t,
          RequestURL u c = (Some (got, Some err), c', t)
          /\ sends t = [GET_request c u; retry_request c u]).
Proof.
  intros Hu. split.
  - intros HDo. rewrite (RequestURL_first_error _ _ _ _ _ Hu HDo). now eexists _, _.
  - intros resp e2 Hok HDo Hs Hb Hc HDo2.
    destruct (RequestURL_retry c u e1 resp e2 _ Hu Hok HDo Hs Hb Hc HDo2)
      as (t & Hrun & Hsent & _).
    eexists _, t. split; [exact Hrun|exact Hsent].
Qed.

(** C5. When the first send is answered by a 401 whose WWW-Authenticate
    header is absent or empty, RequestURL returns that 401 response with
    a nil error, and the executor was called exactly once. *)
Theorem RequestURL_missing_challenge c u e1 resp :
  url_Parse_ok (URL_String u) = true ->
  Do (Client c) (GET_request c u) = (e1, (Some resp, None)) ->
  StatusCode resp = 401 ->
  resp_Header resp !! "Www-Authenticate" = None
  \/ Header_Get (resp_Header resp) "WWW-Authenticate" = EmptyString ->
  exists c' t,
    RequestURL u c = (Some (Some resp, None), c', t)
    /\ sends t = [GET_request c u].
Proof.
  intros Hu HDo Hs Hh.
  rewrite (RequestURL_no_challenge _ _ _ _ Hu HDo Hs); [now eexists _, _|].
  destruct Hh as [Hh|Hh]; [|exact Hh]. now apply Header_Get_absent.
Qed.

(** A nil response with a nil error: [resp.StatusCode] panics. *)
Lemma RequestURL_nil_response c u e1 :
  url_Parse_ok (URL_String u) = true ->
  Do (Client c) (GET_request c u) = (e1, (None, None)) ->
  RequestURL u c = (None, set_Client e1 c, [Sent (GET_request c u)]).
Proof.
  intros Hu HDo. unfold RequestURL. unfold bind at 1.
  rewrite (makeRequest_ok _ _ Hu). unfold bind at 1.
  rewrite (Client_Do_run _ _ _ _ HDo). reflexivity.
Qed.

(** The URL does not parse: [req.Header] panics before any send. *)
Lemma RequestURL_bad_url c u :
  url_Parse_ok (URL_String u) = false ->
  RequestURL u c = (None, c, []).
Proof.
  intros Hu. unfold RequestURL, bind.
  rewrite makeRequest_fails; [reflexivity|].
  unfold NewRequest. rewrite Hu. now rewrite andb_false_r.
Qed.

Lemma getBasicAuthStr_total c :
  exists a t,
    getBasicAuthStr c = (Some a, set_basicAuthStr a c, t)
    /\ sends t = [] /\ logs t = [].
Proof.
  destruct (String.eqb_spec (basicAuthStr c) EmptyString) as [He|Hn].
  - eexists _, _. now rewrite (getBasicAuthStr_fresh _ He).
  - exists (basicAuthStr c), []. rewrite (getBasicAuthStr_cached _ Hn).
    now rewrite set_basicAuthStr_same.
Qed.

(** The challenge is answered whatever the cache holds: one more send. *)
Lemma after_challenge_sends c u resp h :
  url_Parse_ok (URL_String u) = true ->
  exists r c' t,
    after_challenge u resp h c = (Some r, c', t)
    /\ (length (sends t) <= 1)%nat.
Proof.
  intros Hu.
  destruct (String.eqb_spec (ToLower (scheme_token h)) "basic") as [Hb|Hb].
  - unfold after_challenge. unfold bind at 1.
    rewrite (makeRequest_ok _ _ Hu). unfold bind at 1.
    rewrite (addAuthHeader_basic _ _ _ Hb).
    destruct (getBasicAuthStr_total c) as (a & t & -> & Hs & _).
    cbn [option_map]. unfold bind at 1, Client_Do.
    destruct (Do _ _) as [e2 [got err]].
    eexists _, _, _. split; [now destruct err|].
    cbn [app]. unfold sends in *. rewrite omap_app, Hs. cbn. lia.
  - rewrite (after_challenge_unsupported _ _ _ _ Hu Hb).
    eexists _, _, _. split; [reflexivity|]. cbn. lia.
Qed.

Lemma no_credentials_dec c : no_credentials c \/ ~ no_credentials c.
Proof.
  destruct (String.eqb (HTTPUsername c) EmptyString
            && String.eqb (HTTPPassword c) EmptyString) eqn:Ht.
  - left. now apply no_credentials_test.
  - right. intros Hc. apply no_credentials_test in Hc. congruence.
Qed.

Ltac count_sends :=
  cbn; repeat split;
  try (intros; lia);
  try (intros [? ?]; discriminate);
  try (intros ? Hne; now elim Hne);
  try (intros; eexists; reflexivity).

(** C6, as the code has it. Every call to RequestURL that returns has
    called the executor once or twice; no call makes more than two
    sends; and the call returns whenever the URL parses and the first
    send does not answer with a nil response and a nil error. *)
Theorem RequestURL_sends_once_or_twice c u :
  let '(r, _, t) := RequestURL u c in
  (is_Some r -> length (sends t) = 1%nat \/ length (sends t) = 2%nat)
  /\ (length (sends t) <= 2)%nat
  /\ (url_Parse_ok (URL_String u) = true ->
      (Do (Client c) (GET_request c u)).2 <> (None, None) ->
      is_Some r).
Proof.
  destruct (url_Parse_ok (URL_String u)) eqn:Hu.
  2:{ rewrite (RequestURL_bad_url _ _ Hu). count_sends. }
  destruct (Do (Client c) (GET_request c u)) as [e1 [got err]] eqn:HDo.
  destruct err as [err|].
  { rewrite (RequestURL_first_error _ _ _ _ _ Hu HDo). count_sends. }
  destruct got as [resp|].
  2:{ rewrite (RequestURL_nil_response _ _ _ Hu HDo). count_sends. }
  destruct (Z.eq_dec (StatusCode resp) 401) as [Hs|Hs].
  2:{ rewrite (RequestURL_other_status _ _ _ _ Hu HDo Hs). count_sends. }
  destruct (String.eqb_spec (Header_Get (resp_Header resp) "WWW-Authenticate")
              EmptyString) as [Hh|Hh].
  { rewrite (RequestURL_no_challenge _ _ _ _ Hu HDo Hs Hh). count_sends. }
  destruct (no_credentials_dec c) as [Hc|Hc].
  { rewrite (RequestURL_no_credentials _ _ _ _ Hu HDo Hs Hc). count_sends. }
  rewrite (RequestURL_challenged _ _ _ _ Hu HDo Hs Hh Hc).
  destruct (after_challenge_sends (set_Client e1 c) u resp
              (Header_Get (resp_Header resp) "WWW-Authenticate") Hu)
    as (r & c' & t & -> & Ht).
  unfold sends in *. cbn [omap list_omap length]. count_sends.
Qed.

(** ** What the methods do to the client *)

Lemma evolves_refl c : evolves c c.
Proof. unfold evolves. tauto. Qed.

Lemma evolves_trans c1 c2 c3 : evolves c1 c2 -> evolves c2 c3 -> evolves c1 c3.
Proof.
  unfold evolves, basic_credentials, userpass.
  intros (Ha & Hu & Hp & Hc) (Ha' & Hu' & Hp' & Hc').
  rewrite Ha', Hu', Hp', Ha, Hu, Hp. repeat split.
  rewrite Hu, Hp in Hc'.
  destruct Hc as [Hc|[Hc1 Hc2]], Hc' as [Hc'|[Hc1' Hc2']].
  - left. congruence.
  - right. split; congruence.
  - right. split; congruence.
  - right. split; congruence.
Qed.

Lemma evolves_set_Client c e : evolves c (set_Client e c).
Proof. unfold evolves. cbn. tauto. Qed.

Lemma evolves_cache_ok c c' : evolves c c' -> cache_ok c -> cache_ok c'.
Proof.
  unfold evolves, cache_ok, basic_credentials, userpass.
  intros (_ & Hu & Hp & Hc) Hok. rewrite Hu, Hp.
  destruct Hc as [Hc|[_ Hc]]; [rewrite Hc; exact Hok|now right].
Qed.

Lemma steady_ret {A} (a : A) : steady (ret a).
Proof. intros c. apply evolves_refl. Qed.

Lemma steady_panic {A} : steady (panic (A := A)).
Proof. intros c. apply evolves_refl. Qed.

Lemma steady_field {A} (f : httpClient -> A) : steady (field f).
Proof. intros c. apply evolves_refl. Qed.

Lemma steady_emit e : steady (emit e).
Proof. intros c. apply evolves_refl. Qed.

Lemma steady_bind {A B} (m : M A) (k : A -> M B) :
  steady m -> (forall a, steady (k a)) -> steady (bind m k).
Proof.
  intros Hm Hk c. specialize (Hm c). unfold client_after, bind in *.
  destruct (m c) as [[[a|] c1] t1]; [|exact Hm].
  specialize (Hk a c1). unfold client_after in Hk.
  destruct (k a c1) as [[b c2] t2]. exact (evolves_trans _ _ _ Hm Hk).
Qed.

Lemma steady_Client_Do req : steady (Client_Do req).
Proof.
  intros c. unfold client_after, Client_Do.
  destruct (Do (Client c) req) as [e r]. apply evolves_set_Client.
Qed.

Lemma steady_getBasicAuthStr : steady getBasicAuthStr.
Proof.
  intros c. unfold client_after.
  destruct (String.eqb_spec (basicAuthStr c) EmptyString) as [He|Hn].
  - rewrite (getBasicAuthStr_fresh _ He). unfold evolves. cbn. tauto.
  - rewrite (getBasicAuthStr_cached _ Hn). apply evolves_refl.
Qed.

Lemma steady_index {A} (l : list A) i : steady (index l i).
Proof. unfold index. destruct (l !! i); [apply steady_ret|apply steady_panic]. Qed.

Lemma steady_addAuthHeader req h : steady (addAuthHeader req h).
Proof.
  unfold addAuthHeader. apply steady_bind; [apply steady_index|]. intros scheme.
  destruct (String.eqb _ _); [|apply steady_ret].
  apply steady_bind; [apply steady_getBasicAuthStr|]. intros a. apply steady_ret.
Qed.

Lemma steady_makeRequest u method : steady (makeRequest u method).
Proof.
  unfold makeRequest. destruct (NewRequest _ _); [|apply steady_panic].
  apply steady_bind; [apply steady_field|]. intros ua. apply steady_ret.
Qed.

Lemma steady_RequestURL u : steady (RequestURL u).
Proof.
  unfold RequestURL.
  apply steady_bind; [apply steady_makeRequest|]. intros req.
  apply steady_bind; [apply steady_Client_Do|]. intros [got [err|]];
    [apply steady_ret|].
  destruct got as [resp|]; [|apply steady_panic].
  destruct (StatusCode resp =? 401); [|apply steady_ret].
  destruct (String.eqb _ EmptyString); [apply steady_ret|].
  apply steady_bind; [apply steady_field|]. intros user.
  apply steady_bind; [apply steady_field|]. intros pass.
  destruct (_ && _); [apply steady_ret|].
  apply steady_bind; [apply steady_makeRequest|]. intros req2.
  apply steady_bind; [apply steady_addAuthHeader|]. intros [req3 [e|]].
  - apply steady_bind; [apply steady_emit|]. intros _. apply steady_ret.
  - apply steady_bind; [apply steady_Client_Do|]. intros [got2 [err2|]];
      apply steady_ret.
Qed.

Lemma steady_SetCheckRedirect p : steady (SetCheckRedirect p).
Proof.
  unfold SetCheckRedirect. apply steady_bind; [apply steady_field|].
  intros [cli|m]; [|apply steady_emit].
  intros c. apply evolves_set_Client.
Qed.

Lemma run_op_evolves o c : evolves c (run_op o c).
Proof.
  destruct o; cbn [run_op].
  - apply steady_RequestURL.
  - apply steady_addAuthHeader.
  - apply steady_getBasicAuthStr.
  - apply steady_SetCheckRedirect.
Qed.

Lemma reachable_evolves c0 c : reachable c0 c -> evolves c0 c.
Proof.
  induction 1 as [|c o _ IH]; [apply evolves_refl|].
  exact (evolves_trans _ _ _ IH (run_op_evolves o c)).
Qed.

(** C7. The cached string of a client is empty or is the base64 encoding
    of username:password: each of RequestURL, addAuthHeader,
    getBasicAuthStr and SetCheckRedirect keeps it so and keeps the
    credentials, and so it holds in every state a client constructed
    with an empty cache goes through. *)
Theorem cache_invariant :
  (forall o c,
      cache_ok c ->
      cache_ok (run_op o c)
      /\ HTTPUsername (run_op o c) = HTTPUsername c
      /\ HTTPPassword (run_op o c) = HTTPPassword c)
  /\ (forall c0 c,
        basicAuthStr c0 = EmptyString ->
        reachable c0 c ->
        (basicAuthStr c = EmptyString
         \/ basicAuthStr c
            = EncodeToString (HTTPUsername c +:+ ":" +:+ HTTPPassword c))
        /\ HTTPUsername c = HTTPUsername c0
        /\ HTTPPassword c = HTTPPassword c0).
Proof.
  split.
  - intros o c Hok. pose proof (run_op_evolves o c) as Hev.
    split; [exact (evolves_cache_ok _ _ Hev Hok)|].
    destruct Hev as (_ & Hu & Hp & _). now split.
  - intros c0 c Hnew Hreach. pose proof (reachable_evolves _ _ Hreach) as Hev.
    split; [|destruct Hev as (_ & Hu & Hp & _); now split].
    apply (evolves_cache_ok _ _ Hev). now left.
Qed.

(** C8. The first call of getBasicAuthStr on a client computes the
    base64 encoding of username:password, stores it and returns it; every
    later call, whatever the client did in between, returns the same
    text from the store: it makes no call to the encoder and leaves the
    client as it is. *)
Theorem getBasicAuthStr_memoized c :
  basicAuthStr c = EmptyString ->
  exists c1,
    getBasicAuthStr c
    = (Some (EncodeToString (HTTPUsername c +:+ ":" +:+ HTTPPassword c)), c1,
       [Encoded (HTTPUsername c +:+ ":" +:+ HTTPPassword c)])
    /\ basicAuthStr c1
       = EncodeToString (HTTPUsername c +:+ ":" +:+ HTTPPassword c)
    /\ forall c2,
        reachable c1 c2 ->
        getBasicAuthStr c2
        = (Some (EncodeToString (HTTPUsername c +:+ ":" +:+ HTTPPassword c)), c2, [])
        /\ basicAuthStr c2 = basicAuthStr c1.
Proof.
  intros Hnew. eexists. split; [exact (getBasicAuthStr_fresh _ Hnew)|].
  split; [reflexivity|]. intros c2 Hreach.
  destruct (reachable_evolves _ _ Hreach) as (_ & _ & _ & [Hc|[Hc _]]).
  - cbn [basicAuthStr set_basicAuthStr] in Hc. split; [|exact Hc].
    rewrite getBasicAuthStr_cached; rewrite Hc; [reflexivity|].
    apply basic_credentials_nonempty.
  - cbn [basicAuthStr set_basicAuthStr] in Hc.
    now apply basic_credentials_nonempty in Hc.
Qed.

(** C9. SetCheckRedirect returns without panicking, sends nothing, and
    keeps the user agent, the credentials and the cache. On a client whose
    executor is not an http.Client it logs one diagnostic and leaves the
    client as it was, so that a RequestURL after it does what it would
    have done before. On a client whose executor is an http.Client, the
    executor afterwards is an http.Client whose CheckRedirect is the
    policy given and whose other state is as before, nothing is logged,
    and the next send runs under that policy. *)
Theorem SetCheckRedirect_effect c (checker : Policy) :
  exists c' t,
    SetCheckRedirect checker c = (Some tt, c', t)
    /\ UserAgent c' = UserAgent c
    /\ HTTPUsername c' = HTTPUsername c
    /\ HTTPPassword c' = HTTPPassword c
    /\ basicAuthStr c' = basicAuthStr c
    /\ sends t = []
    /\ match Client c with
       | Substitute m =>
           c' = c
           /\ Client c' = Substitute m
           /\ t = [Logged LogError "Unable to set CheckRedirect, type assertion failed."]
           /\ forall u, RequestURL u c' = RequestURL u c
       | Concrete cli =>
           t = []
           /\ exists cli',
               Client c' = Concrete cli'
               /\ CheckRedirect cli' = checker
               /\ net cli' = net cli
               /\ forall req,
                   (Do (Client c') req).2 = (http_Do checker (net cli) req).2
                   /\ policy_of (Do (Client c') req).1 = Some checker
       end.
Proof.
  unfold SetCheckRedirect, bind, field.
  destruct (Client c) as [cli|m] eqn:He; unfold update, Logf, emit.
  - eexists _, _. split; [reflexivity|]. cbn [UserAgent HTTPUsername HTTPPassword
      basicAuthStr set_Client Client]. do 5 (split; [reflexivity|]).
    split; [reflexivity|]. eexists. split; [reflexivity|].
    cbn [CheckRedirect net]. do 2 (split; [reflexivity|]). intros req.
    cbn [Do CheckRedirect net]. now destruct (http_Do checker (net cli) req).
  - exists c, [Logged LogError "Unable to set CheckRedirect, type assertion failed."].
    split; [reflexivity|]. do 5 (split; [reflexivity|]).
    split; [reflexivity|]. split; [exact He|]. split; reflexivity.
Qed.

(** C10. addAuthHeader never panics and touches nothing of the request
    but the Authorization header. With a scheme token that is basic in
    any letter case it returns a nil error and appends one value to the
    Authorization values, every other header (User-Agent among them)
    staying as it was. With any other scheme token, the empty token of a
    challenge that starts with a space included, it returns an error
    that names the token and the request is unchanged. *)
Theorem addAuthHeader_frame req h c :
  exists req' (err : option error) c' t,
    addAuthHeader req h c = (Some (req', err), c', t)
    /\ req_Method req' = req_Method req
    /\ req_URL req' = req_URL req
    /\ (forall k, k <> "Authorization" -> req_Header req' !! k = req_Header req !! k)
    /\ req_Header req' !! "User-Agent" = req_Header req !! "User-Agent"
    /\ (ToLower (scheme_token h) = "basic" ->
        err = None
        /\ exists v,
            req_Header req' !! "Authorization"
            = Some (default [] (req_Header req !! "Authorization") ++ [v])
            /\ (cache_ok c ->
                v = "Basic "
                    +:+ EncodeToString (HTTPUsername c +:+ ":" +:+ HTTPPassword c)))
    /\ (ToLower (scheme_token h) <> "basic" ->
        err = Some ("Unsupported WWW-Authenticate Method: " +:+ scheme_token h))
    /\ (err <> None -> req' = req)
    /\ (forall rest, h = String " " rest -> err <> None).
Proof.
  destruct (String.eqb_spec (ToLower (scheme_token h)) "basic") as [Hb|Hb].
  - rewrite (addAuthHeader_basic _ _ _ Hb).
    destruct (getBasicAuthStr_total c) as (a & t & Hrun & _). rewrite Hrun.
    cbn [option_map]. eexists _, _, _, _. split; [reflexivity|].
    cbn [req_Header_Add req_Method req_URL req_Header].
    split; [reflexivity|]. split; [reflexivity|].
    split; [intros k Hk; now apply Header_Add_other|].
    split; [now apply Header_Add_other|].
    split; [|split; [|split]].
    + intros _. split; [reflexivity|]. exists ("Basic " +:+ a).
      split; [apply Header_Add_same|]. intros Hok.
      destruct (getBasicAuthStr_sound c Hok) as (t' & Hrun' & _).
      rewrite Hrun in Hrun'. now inversion Hrun'.
    + intros Hn. now elim Hn.
    + intros Hn. now elim Hn.
    + intros rest ->. discriminate Hb.
  - rewrite (addAuthHeader_unsupported _ _ _ Hb).
    eexists _, _, _, _. split; [reflexivity|].
    repeat split; try done.
Qed.

(** ** Every call follows one of the paths *)

Lemma getBasicAuthStr_run c :
  getBasicAuthStr c
  = (Some (auth_string c), set_basicAuthStr (auth_string c) c, auth_events c).
Proof.
  unfold auth_string, auth_events.
  destruct (String.eqb_spec (basicAuthStr c) EmptyString) as [He|Hn].
  - apply (getBasicAuthStr_fresh _ He).
  - rewrite (getBasicAuthStr_cached _ Hn). now rewrite set_basicAuthStr_same.
Qed.

Lemma after_challenge_retry c u resp h e2 (r2 : DoResult) :
  url_Parse_ok (URL_String u) = true ->
  ToLower (scheme_token h) = "basic" ->
  Do (Client c) (auth_request c u) = (e2, r2) ->
  after_challenge u resp h c
  = (Some r2, set_Client e2 (set_basicAuthStr (auth_string c) c),
     auth_events c ++ [Sent (auth_request c u)]).
Proof.
  intros Hu Hb HDo. unfold after_challenge. unfold bind at 1.
  rewrite (makeRequest_ok _ _ Hu). unfold bind at 1.
  rewrite (addAuthHeader_basic _ _ _ Hb), getBasicAuthStr_run.
  cbn [option_map]. fold (auth_request c u). unfold bind at 1.
  rewrite (Client_Do_run (set_basicAuthStr (auth_string c) c) _ _ _ HDo).
  now destruct r2 as [got [err|]].
Qed.

Lemma RequestURL_path_complete c u : RequestURL_path c u (RequestURL u c).
Proof.
  destruct (url_Parse_ok (URL_String u)) eqn:Hu.
  2:{ rewrite (RequestURL_bad_url _ _ Hu). now constructor. }
  destruct (Do (Client c) (GET_request c u)) as [e1 [got err]] eqn:HDo.
  destruct err as [err|].
  { rewrite (RequestURL_first_error _ _ _ _ _ Hu HDo). now constructor. }
  destruct got as [resp|].
  2:{ rewrite (RequestURL_nil_response _ _ _ Hu HDo). now constructor. }
  destruct (Z.eq_dec (StatusCode resp) 401) as [Hs|Hs].
  2:{ rewrite (RequestURL_other_status _ _ _ _ Hu HDo Hs).
      apply path_final; auto. }
  destruct (String.eqb_spec (challenge_of resp) EmptyString) as [Hh|Hh].
  { rewrite (RequestURL_no_challenge _ _ _ _ Hu HDo Hs Hh). apply path_final; auto. }
  destruct (no_credentials_dec c) as [Hc|Hc].
  { rewrite (RequestURL_no_credentials _ _ _ _ Hu HDo Hs Hc). apply path_final; auto. }
  rewrite (RequestURL_challenged _ _ _ _ Hu HDo Hs Hh Hc).
  fold (challenge_of resp).
  destruct (String.eqb_spec (ToLower (scheme_token (challenge_of resp))) "basic")
    as [Hb|Hb].
  - destruct (Do e1 (auth_request c u)) as [e2 r2] eqn:HDo2.
    rewrite (after_challenge_retry (set_Client e1 c) u resp _ e2 r2 Hu Hb HDo2).
    exact (path_retry c u e1 resp e2 r2 Hu HDo Hs Hc Hb HDo2).
  - rewrite (after_challenge_unsupported _ _ _ _ Hu Hb).
    now apply path_unsupported.
Qed.

(** ** What a call sends, logs and encodes *)

Lemma sends_auth_events c : sends (auth_events c) = [].
Proof. unfold auth_events. now destruct (String.eqb _ _). Qed.

Lemma logs_auth_events c : logs (auth_events c) = [].
Proof. unfold auth_events. now destruct (String.eqb _ _). Qed.

Lemma sends_retry_trace c (r1 r2 : Request) :
  sends (Sent r1 :: auth_events c ++ [Sent r2]) = [r1; r2].
Proof.
  unfold sends. cbn [omap list_omap]. rewrite omap_app.
  fold (sends (auth_events c)). now rewrite sends_auth_events.
Qed.

Lemma logs_retry_trace c (r1 r2 : Request) :
  logs (Sent r1 :: auth_events c ++ [Sent r2]) = [].
Proof.
  unfold logs. cbn [omap list_omap]. rewrite omap_app.
  fold (logs (auth_events c)). now rewrite logs_auth_events.
Qed.

Lemma encodings_retry_trace c (r1 r2 : Request) :
  encodings (Sent r1 :: auth_events c ++ [Sent r2])
  = if String.eqb (basicAuthStr c) EmptyString then [userpass c] else [].
Proof.
  unfold encodings, auth_events. cbn [omap list_omap]. rewrite omap_app.
  now destruct (String.eqb _ _).
Qed.

Lemma GET_request_Header c u :
  req_Header (GET_request c u) = {[ "User-Agent" := [UserAgent c] ]}.
Proof.
  unfold GET_request, req_Header_Set, Header_Set. cbn [req_Header].
  change (CanonicalMIMEHeaderKey "User-Agent") with "User-Agent".
  apply insert_empty.
Qed.

Lemma auth_request_Header c u :
  req_Header (auth_request c u)
  = <["Authorization" := ["Basic " +:+ auth_string c]]>
      {[ "User-Agent" := [UserAgent c] ]}.
Proof.
  unfold auth_request, req_Header_Add, Header_Add. cbn [req_Header].
  change (CanonicalMIMEHeaderKey "Authorization") with "Authorization".
  rewrite GET_request_Header.
  rewrite lookup_singleton_ne by discriminate. reflexivity.
Qed.

Lemma RequestURL_sends_shape c u :
  sends (RequestURL u c).2 = []
  \/ sends (RequestURL u c).2 = [GET_request c u]
  \/ sends (RequestURL u c).2 = [GET_request c u; auth_request c u].
Proof.
  destruct (RequestURL_path_complete c u); cbn [snd]; auto.
  right. right. apply sends_retry_trace.
Qed.

Lemma User_Agent_of_sent c u req :
  req = GET_request c u \/ req = auth_request c u ->
  req_Method req = "GET" /\ req_URL req = URL_String u
  /\ Header_Get (req_Header req) "User-Agent" = UserAgent c.
Proof.
  intros [-> | ->]; (split; [reflexivity|]; split; [reflexivity|]);
    unfold Header_Get; change (CanonicalMIMEHeaderKey "User-Agent") with "User-Agent".
  - rewrite GET_request_Header, lookup_singleton_eq. reflexivity.
  - rewrite auth_request_Header, lookup_insert_ne, lookup_singleton_eq;
      [reflexivity|discriminate].
Qed.

(** X1. Every request a call of RequestURL sends is a GET for the text of
    the URL with the client's user agent; its headers are the user agent
    alone, or the user agent and one Authorization value that starts with
    Basic and a space; and the first request of a call never carries an
    Authorization header. *)
Theorem RequestURL_requests c u :
  Forall
    (fun req =>
       req_Method req = "GET" /\ req_URL req = URL_String u
       /\ Header_Get (req_Header req) "User-Agent" = UserAgent c
       /\ (req_Header req = {[ "User-Agent" := [UserAgent c] ]}
           \/ exists a,
               req_Header req
               = <["Authorization" := ["Basic " +:+ a]]>
                   {[ "User-Agent" := [UserAgent c] ]}))
    (sends (RequestURL u c).2)
  /\ match sends (RequestURL u c).2 with
     | first :: _ => req_Header first !! "Authorization" = None
     | [] => True
     end.
Proof.
  pose proof (User_Agent_of_sent c u (GET_request c u) (or_introl eq_refl))
    as (Hm1 & Hu1 & Ha1).
  pose proof (User_Agent_of_sent c u (auth_request c u) (or_intror eq_refl))
    as (Hm2 & Hu2 & Ha2).
  assert (req_Header (GET_request c u) !! "Authorization" = None) as Hnone.
  { rewrite GET_request_Header. now apply lookup_singleton_ne. }
  destruct (RequestURL_sends_shape c u) as [-> | [-> | ->]].
  - split; [apply Forall_nil_2|exact I].
  - split; [|exact Hnone]. apply Forall_cons_2; [|apply Forall_nil_2].
    do 3 (split; [assumption|]). left. apply GET_request_Header.
  - split; [|exact Hnone].
    apply Forall_cons_2; [|apply Forall_cons_2; [|apply Forall_nil_2]].
    + do 3 (split; [assumption|]). left. apply GET_request_Header.
    + do 3 (split; [assumption|]). right. eexists. apply auth_request_Header.
Qed.

(** X2. A 401 with a challenge, basic or not, that reaches a client with
    neither user name nor password comes back as it is with a nil error:
    one send, nothing logged, nothing encoded, the cache untouched. *)
Theorem RequestURL_nothing_to_offer c u e1 resp :
  url_Parse_ok (URL_String u) = true ->
  Do (Client c) (GET_request c u) = (e1, (Some resp, None)) ->
  StatusCode resp = 401 ->
  no_credentials c ->
  exists c' t,
    RequestURL u c = (Some (Some resp, None), c', t)
    /\ sends t = [GET_request c u] /\ logs t = [] /\ encodings t = []
    /\ basicAuthStr c' = basicAuthStr c.
Proof.
  intros Hu HDo Hs Hc.
  destruct (String.eqb_spec (challenge_of resp) EmptyString) as [Hh|Hh].
  - rewrite (RequestURL_no_challenge _ _ _ _ Hu HDo Hs Hh). now eexists _, _.
  - rewrite (RequestURL_no_credentials _ _ _ _ Hu HDo Hs Hc). now eexists _, _.
Qed.

(** X3. Credentials leave the client only in answer to a basic challenge:
    when a request sent by RequestURL carries an Authorization header, it
    is the second request of the call, the first was answered without
    error by a 401 whose scheme token lowers to basic, and the client has
    a user name or a password. *)
Theorem RequestURL_credentials_only_when_challenged c u req :
  req ∈ sends (RequestURL u c).2 ->
  is_Some (req_Header req !! "Authorization") ->
  ~ no_credentials c
  /\ sends (RequestURL u c).2 = [GET_request c u; req]
  /\ exists e1 resp,
      Do (Client c) (GET_request c u) = (e1, (Some resp, None))
      /\ StatusCode resp = 401
      /\ ToLower (scheme_token (challenge_of resp)) = "basic".
Proof.
  assert (forall r, r ∈ [GET_request c u] ->
                    ~ is_Some (req_Header r !! "Authorization")) as Hfirst.
  { intros r Hr%list_elem_of_singleton [v Hv]. subst r.
    rewrite GET_request_Header, lookup_singleton_ne in Hv; discriminate. }
  destruct (RequestURL_path_complete c u); cbn [snd];
    try (intros Hin Hauth; now (apply Hfirst in Hin || inversion Hin)).
  rewrite sends_retry_trace. intros Hin Hauth.
  apply elem_of_cons in Hin as [-> | Hin].
  { exfalso. eapply Hfirst; [apply list_elem_of_singleton; reflexivity|exact Hauth]. }
  apply list_elem_of_singleton in Hin as ->. eauto 10.
Qed.

(** X4. What RequestURL returns is what its last send returned, response
    and error alike: the result of the only send, or, after a 401 to the
    first send, the result of the retry, which went to the executor as the
    first send left it. An error it returns is therefore an error of the
    executor, and nothing was logged on the way to it. *)
Theorem RequestURL_returns_last_send c u (r : DoResult) c' t :
  RequestURL u c = (Some r, c', t) ->
  ((Do (Client c) (GET_request c u) = (Client c', r)
    /\ sends t = [GET_request c u])
   \/ (exists e1 resp,
         Do (Client c) (GET_request c u) = (e1, (Some resp, None))
         /\ StatusCode resp = 401
         /\ Do e1 (auth_request c u) = (Client c', r)
         /\ sends t = [GET_request c u; auth_request c u]))
  /\ (r.2 <> None -> logs t = []).
Proof.
  intros Hrun. pose proof (RequestURL_path_complete c u) as Hp.
  rewrite Hrun in Hp. inversion Hp; subst.
  - split; [left; now split|]. reflexivity.
  - split; [left; now split|]. reflexivity.
  - split; [left; now split|]. intros Hn. now elim Hn.
  - split; [|intros _; apply logs_retry_trace]. right. eexists _, _.
    split; [eassumption|]. split; [assumption|]. split; [assumption|].
    apply sends_retry_trace.
Qed.

(** X5. Two ways RequestURL panics, and one way it does not. When the
    text of the URL does not parse, the nil request makes the call panic
    before any send, the client untouched. When the first send answers
    with a nil response and a nil error, the call panics after that one
    send. When the retry send answers with a nil response and a nil
    error, nothing is dereferenced: the call returns that pair after two
    sends. *)
Theorem RequestURL_panic_cases c u :
  (url_Parse_ok (URL_String u) = false ->
   RequestURL u c = (None, c, []))
  /\ (forall e1,
        url_Parse_ok (URL_String u) = true ->
        Do (Client c) (GET_request c u) = (e1, (None, None)) ->
        exists c' t,
          RequestURL u c = (None, c', t)
          /\ sends t = [GET_request c u]
          /\ Client c' = e1 /\ basicAuthStr c' = basicAuthStr c)
  /\ (forall e1 resp e2,
        url_Parse_ok (URL_String u) = true ->
        Do (Client c) (GET_request c u) = (e1, (Some resp, None)) ->
        StatusCode resp = 401 ->
        ToLower (scheme_token (challenge_of resp)) = "basic" ->
        ~ no_credentials c ->
        Do e1 (auth_request c u) = (e2, (None, None)) ->
        exists c' t,
          RequestURL u c = (Some (None, None), c', t)
          /\ sends t = [GET_request c u; auth_request c u]
          /\ Client c' = e2).
Proof.
  split; [apply RequestURL_bad_url|]. split.
  - intros e1 Hu HDo. rewrite (RequestURL_nil_response _ _ _ Hu HDo).
    now eexists _, _.
  - intros e1 resp e2 Hu HDo Hs Hb Hc HDo2.
    rewrite (RequestURL_challenged _ _ _ _ Hu HDo Hs (basic_scheme_nonempty _ Hb) Hc).
    fold (challenge_of resp).
    rewrite (after_challenge_retry (set_Client e1 c) u resp _ e2 _ Hu Hb HDo2).
    eexists _, _. split; [reflexivity|]. split; [apply sends_retry_trace|reflexivity].
Qed.

(** X6. RequestURL logs only the refusal of a scheme: when a call logs
    anything, the first send was answered without error by a 401 with a
    challenge whose scheme token does not lower to basic, the client has a
    credential, the log holds that one entry, and the 401 is returned
    with a nil error after a single send. *)
Theorem RequestURL_logs_only_unsupported c u :
  logs (RequestURL u c).2 <> [] ->
  exists e1 resp,
    Do (Client c) (GET_request c u) = (e1, (Some resp, None))
    /\ StatusCode resp = 401
    /\ challenge_of resp <> EmptyString
    /\ ~ no_credentials c
    /\ ToLower (scheme_token (challenge_of resp)) <> "basic"
    /\ RequestURL u c
       = (Some (Some resp, None), set_Client e1 c,
          [Sent (GET_request c u);
           Logged LogInfo
             ("Unsupported WWW-Authenticate Method: "
              +:+ scheme_token (challenge_of resp))]).
Proof.
  destruct (RequestURL_path_complete c u); cbn [snd];
    try (intros Hl; now elim Hl).
  - intros _. eauto 10.
  - rewrite logs_retry_trace. intros Hl. now elim Hl.
Qed.

(** X7. The encoding is computed lazily and at most once in a call: a
    call with a filled cache, or a call that sends fewer than two
    requests, makes no call to the encoder and leaves the cache as it is;
    a call that does encode encodes username:password and leaves the
    result in the cache. *)
Theorem RequestURL_encodes_lazily c u :
  let '(_, c', t) := RequestURL u c in
  (length (encodings t) <= 1)%nat
  /\ (basicAuthStr c <> EmptyString ->
      encodings t = [] /\ basicAuthStr c' = basicAuthStr c)
  /\ ((length (sends t) < 2)%nat ->
      encodings t = [] /\ basicAuthStr c' = basicAuthStr c)
  /\ (encodings t <> [] ->
      encodings t = [userpass c]
      /\ basicAuthStr c' = EncodeToString (HTTPUsername c +:+ ":" +:+ HTTPPassword c)
      /\ length (sends t) = 2%nat).
Proof.
  destruct (RequestURL_path_complete c u);
    try (cbn; repeat split; try lia; try done; try (intros Hn; now elim Hn); fail).
  rewrite encodings_retry_trace, sends_retry_trace.
  cbn [basicAuthStr set_Client set_basicAuthStr]. unfold auth_string.
  destruct (String.eqb_spec (basicAuthStr c) EmptyString) as [He|Hn].
  - cbn. repeat split; try lia; try done; try (intros Hx; now elim Hx).
  - cbn. repeat split; try lia; try done; try (intros Hx; now elim Hx).
Qed.

(** ** The redirect policy *)

Lemma Do_policy (e : httpClientInt) req : policy_of (Do e req).1 = policy_of e.
Proof.
  destruct e as [cli|m]; cbn [Do].
  - now destruct (http_Do _ _ _).
  - now destruct (mock_Do _ _).
Qed.

Lemma Do_policy_eq (e e' : httpClientInt) req (r : DoResult) :
  Do e req = (e', r) -> policy_of e' = policy_of e.
Proof. intros HDo. rewrite <- (Do_policy e req). now rewrite HDo. Qed.

Lemma addAuthHeader_Client req h c :
  Client (client_after (addAuthHeader req h) c) = Client c.
Proof.
  unfold client_after.
  destruct (String.eqb_spec (ToLower (scheme_token h)) "basic") as [Hb|Hb].
  - rewrite (addAuthHeader_basic _ _ _ Hb), getBasicAuthStr_run. reflexivity.
  - now rewrite (addAuthHeader_unsupported _ _ _ Hb).
Qed.

(** X8. The redirect policy of the executor changes only through
    SetCheckRedirect: RequestURL, addAuthHeader and getBasicAuthStr leave
    an http.Client with the policy it had and a substitute without one,
    and SetCheckRedirect puts its argument in place of the policy of an
    http.Client. *)
Theorem redirect_policy_kept c o :
  policy_of (Client (run_op o c))
  = match o, Client c with
    | OpSetCheckRedirect checker, Concrete _ => Some checker
    | _, e => policy_of e
    end.
Proof.
  destruct o as [u|req h| |checker]; cbn [run_op].
  - transitivity (policy_of (Client c)); [|now destruct (Client c)].
    unfold client_after.
    destruct (RequestURL_path_complete c u) as
      [Hu|e1 got err Hu HDo|e1 Hu HDo|e1 resp Hu HDo _|e1 resp Hu HDo _ _ _ _
       |e1 resp e2 r2 Hu HDo _ _ _ HDo2];
      cbn [fst snd Client set_Client set_basicAuthStr];
      try reflexivity; try exact (Do_policy_eq _ _ _ _ HDo).
    rewrite (Do_policy_eq _ _ _ _ HDo2). exact (Do_policy_eq _ _ _ _ HDo).
  - rewrite addAuthHeader_Client. now destruct (Client c).
  - unfold client_after. rewrite getBasicAuthStr_run. cbn. now destruct (Client c).
  - unfold client_after, SetCheckRedirect, bind, field.
    destruct (Client c) as [cli|m] eqn:He; unfold update, Logf, emit; cbn.
    + reflexivity.
    + now rewrite He.
Qed.

(** ** The challenge and the header value *)

(** X9. addAuthHeader looks at the scheme token only: two challenges with
    the same text before the first space, whatever realm or parameters
    follow, give the same request, the same error and the same client. *)
Theorem addAuthHeader_ignores_parameters req (h h' : string) c :
  scheme_token h = scheme_token h' ->
  addAuthHeader req h c = addAuthHeader req h' c.
Proof.
  intros Heq. unfold addAuthHeader, index. now rewrite !SplitN_scheme, Heq.
Qed.

(** X10. On a client whose cache is empty or holds the encoding, the value
    addAuthHeader appends for a basic challenge is the text Basic, a space,
    and then nothing but letters of the base64 alphabet and padding,
    whatever bytes the user name and the password are made of. *)
Theorem Authorization_value_alphabet req h c :
  cache_ok c ->
  ToLower (scheme_token h) = "basic" ->
  exists req' c' t a,
    addAuthHeader req h c = (Some (req', None), c', t)
    /\ req_Header req' !! "Authorization"
       = Some (default [] (req_Header req !! "Authorization") ++ ["Basic " +:+ a])
    /\ a <> EmptyString
    /\ all_bytes base64_byte a = true.
Proof.
  intros Hok Hb. rewrite (addAuthHeader_basic _ _ _ Hb).
  destruct (getBasicAuthStr_sound c Hok) as (t & -> & _).
  cbn [option_map]. eexists _, _, _, (basic_credentials c).
  split; [reflexivity|]. split; [apply Header_Add_same|].
  split; [apply basic_credentials_nonempty|apply EncodeToString_alphabet].
Qed.


(** ** Over the life of a client *)

(** X11. Once the cache of a client is filled, no later call of
    RequestURL on it calls the encoder, and the cache keeps its value:
    the credentials are encoded once in the life of a client. *)
Theorem RequestURL_never_encodes_again c0 c u :
  basicAuthStr c0 <> EmptyString ->
  reachable c0 c ->
  encodings (RequestURL u c).2 = []
  /\ basicAuthStr (client_after (RequestURL u) c) = basicAuthStr c0.
Proof.
  intros Hfull Hreach.
  destruct (reachable_evolves _ _ Hreach) as (_ & _ & _ & [Hc|[Hc _]]);
    [|now elim Hfull].
  assert (basicAuthStr c <> EmptyString) as Hfull' by now rewrite Hc.
  pose proof (RequestURL_path_complete c u) as Hp. unfold client_after.
  destruct Hp; cbn [fst snd basicAuthStr set_Client set_basicAuthStr];
    try (split; [reflexivity|exact Hc]).
  rewrite encodings_retry_trace. unfold auth_string.
  rewrite (eqb_empty_false _ Hfull'). now split.
Qed.

(** X12. The user agent of a client never changes: in every state a
    client constructed as c0 goes through, the field is the one of c0,
    and every request a call of RequestURL sends carries it. *)
Theorem UserAgent_fixed c0 c u :
  reachable c0 c ->
  UserAgent c = UserAgent c0
  /\ Forall
       (fun req => Header_Get (req_Header req) "User-Agent" = UserAgent c0)
       (sends (RequestURL u c).2).
Proof.
  intros Hreach. destruct (reachable_evolves _ _ Hreach) as (Hua & _).
  split; [exact Hua|]. rewrite <- Hua.
  pose proof (User_Agent_of_sent c u (GET_request c u) (or_introl eq_refl))
    as (_ & _ & Ha1).
  pose proof (User_Agent_of_sent c u (auth_request c u) (or_intror eq_refl))
    as (_ & _ & Ha2).
  destruct (RequestURL_sends_shape c u) as [-> | [-> | ->]].
  - apply Forall_nil_2.
  - apply Forall_cons_2; [exact Ha1|apply Forall_nil_2].
  - apply Forall_cons_2; [exact Ha1|].
    apply Forall_cons_2; [exact Ha2|apply Forall_nil_2].
Qed.

End Properties.

(** ** The standard library pieces on examples *)

Example ToLower_mixed_case : ToLower "BaSiC" = "basic".
Proof. reflexivity. Qed.

Example SplitN_challenge :
  SplitN "Basic realm=x y" " " 2 = ["Basic"; "realm=x y"].
Proof. reflexivity. Qed.

Example SplitN_no_space : SplitN "Negotiate" " " 2 = ["Negotiate"].
Proof. reflexivity. Qed.

Example SplitN_empty : SplitN "" " " 2 = [""].
Proof. reflexivity. Qed.

Example SplitN_leading_space : SplitN " Basic" " " 2 = [""; "Basic"].
Proof. reflexivity. Qed.

Example SplitN_all : SplitN "a b c" " " (-1) = ["a"; "b"; "c"].
Proof. reflexivity. Qed.

Example EncodeToString_user_pass : EncodeToString "user:pass" = "dXNlcjpwYXNz".
Proof. reflexivity. Qed.

Example EncodeToString_padding :
  EncodeToString "Aladdin:open sesame" = "QWxhZGRpbjpvcGVuIHNlc2FtZQ==".
Proof. reflexivity. Qed.

Example EncodeToString_colon : EncodeToString ":" = "Og==".
Proof. reflexivity. Qed.

Example canonical_challenge_key :
  CanonicalMIMEHeaderKey "WWW-Authenticate" = "Www-Authenticate".
Proof. reflexivity. Qed.

Example canonical_user_agent : CanonicalMIMEHeaderKey "User-Agent" = "User-Agent".
Proof. reflexivity. Qed.

Example canonical_authorization :
  CanonicalMIMEHeaderKey "Authorization" = "Authorization".
Proof. reflexivity. Qed.

Example ToLower_upper : ToLower "BASIC" = "basic".
Proof. reflexivity. Qed.

Example ToLower_digest : ToLower "Digest" = "digest".
Proof. reflexivity. Qed.

(** [unicode.ToLower] sends U+0130 to the ASCII letter i. *)
Example ToLower_dotted_capital : ToLower dotted_capital_token = "basic".
Proof. reflexivity. Qed.

Example scheme_token_challenge : scheme_token "Basic realm=x" = "Basic".
Proof. reflexivity. Qed.

(** A header stored under a key that is not canonical is not found. *)
Example Header_Get_raw_key :
  Header_Get {[ "WWW-Authenticate" := ["Basic realm=x"] ]} "WWW-Authenticate" = "".
Proof. vm_compute. reflexivity. Qed.

Example Header_Get_canonical_key :
  Header_Get basic_challenge "WWW-Authenticate" = "Basic realm=x".
Proof. vm_compute. reflexivity. Qed.

(** ** The claims on the scripted executor *)

(** The specification's example: a basic challenge, the credentials
    user and pass, and a 200 to the retry. *)
Lemma RequestURL_basic_retry_witness :
  exists c' t,
    RequestURL example_url (mock_client [challenge_basic; ok_200] "user" "pass")
    = (Some ok_200, c', t)
    /\ sends t
       = [GET_request (mock_client [challenge_basic; ok_200] "user" "pass") example_url;
          retry_request (mock_client [challenge_basic; ok_200] "user" "pass") example_url]
    /\ Header_Get
         (req_Header
            (retry_request (mock_client [challenge_basic; ok_200] "user" "pass")
               example_url))
         "Authorization"
       = "Basic " +:+ EncodeToString ("user" +:+ ":" +:+ "pass")
    /\ (ok_200.2 = None ->
        RequestURL example_url (mock_client [challenge_basic; ok_200] "user" "pass")
        = (Some (ok_200.1, None), c', t)).
Proof.
  apply (RequestURL_basic_retry (mock_client [challenge_basic; ok_200] "user" "pass")
           example_url (mock [ok_200]) (response 401 basic_challenge)
           (mock []) ok_200).
  - reflexivity.
  - left. reflexivity.
  - reflexivity.
  - reflexivity.
  - vm_compute. reflexivity.
  - intros [Hu _]. discriminate Hu.
  - reflexivity.
Defined.

Lemma RequestURL_passes_other_status_witness :
  exists c' t,
    RequestURL example_url (mock_client [ok_200] "user" "pass")
    = (Some ok_200, c', t)
    /\ sends t = [GET_request (mock_client [ok_200] "user" "pass") example_url].
Proof.
  apply (RequestURL_passes_other_status (mock_client [ok_200] "user" "pass")
           example_url (mock [])).
  - reflexivity.
  - reflexivity.
  - cbn. lia.
Defined.

Lemma RequestURL_unsupported_scheme_witness :
  exists c' t,
    RequestURL example_url (mock_client [challenge_digest; ok_200] "user" "pass")
    = (Some challenge_digest, c', t)
    /\ sends t
       = [GET_request (mock_client [challenge_digest; ok_200] "user" "pass") example_url]
    /\ logs t
       = [(LogInfo,
           "Unsupported WWW-Authenticate Method: "
           +:+ scheme_token
                 (Header_Get (resp_Header (response 401 digest_challenge))
                    "WWW-Authenticate"))].
Proof.
  apply (RequestURL_unsupported_scheme
           (mock_client [challenge_digest; ok_200] "user" "pass")
           example_url (mock [ok_200]) (response 401 digest_challenge)).
  - reflexivity.
  - reflexivity.
  - reflexivity.
  - vm_compute. discriminate.
  - vm_compute. discriminate.
  - intros [Hu _]. discriminate Hu.
Defined.

(** A refused connection on the first send, and on the retry. *)
Lemma RequestURL_transport_error_witness :
  (exists c' t,
      RequestURL example_url (mock_client [refused] "user" "pass")
      = (Some refused, c', t)
      /\ sends t = [GET_request (mock_client [refused] "user" "pass") example_url])
  /\ (exists c' t,
        RequestURL example_url (mock_client [challenge_basic; refused] "user" "pass")
        = (Some refused, c', t)
        /\ sends t
           = [GET_request (mock_client [challenge_basic; refused] "user" "pass")
                example_url;
              retry_request (mock_client [challenge_basic; refused] "user" "pass")
                example_url]).
Proof.
  split.
  - apply (RequestURL_transport_error (mock_client [refused] "user" "pass")
             example_url (mock []) None "dial tcp: connection refused");
      reflexivity.
  - apply (RequestURL_transport_error
             (mock_client [challenge_basic; refused] "user" "pass")
             example_url (mock [refused]) None "dial tcp: connection refused"
             eq_refl)
      with (resp := response 401 basic_challenge) (e2 := mock []).
    + left. reflexivity.
    + reflexivity.
    + reflexivity.
    + vm_compute. reflexivity.
    + intros [Hu _]. discriminate Hu.
    + reflexivity.
Defined.

Lemma RequestURL_missing_challenge_witness :
  exists c' t,
    RequestURL example_url (mock_client [challenge_bare; ok_200] "user" "pass")
    = (Some challenge_bare, c', t)
    /\ sends t
       = [GET_request (mock_client [challenge_bare; ok_200] "user" "pass") example_url].
Proof.
  apply (RequestURL_missing_challenge
           (mock_client [challenge_bare; ok_200] "user" "pass")
           example_url (mock [ok_200]) (response 401 ∅)).
  - reflexivity.
  - reflexivity.
  - reflexivity.
  - left. reflexivity.
Defined.

(** C6, as the specification words it, fails: a call answered by a 200
    returns after exactly one send, which is neither zero nor two. *)
Lemma RequestURL_single_send :
  exists c' t,
    RequestURL example_url (mock_client [ok_200] "" "") = (Some ok_200, c', t)
    /\ length (sends t) = 1%nat
    /\ ~ (length (sends t) = 0%nat \/ length (sends t) = 2%nat).
Proof.
  eexists _, _. split; [reflexivity|]. split; [reflexivity|].
  cbn. intros [Hn|Hn]; discriminate Hn.
Qed.

Lemma cache_invariant_witness :
  cache_ok (run_op (OpRequestURL example_url)
              (mock_client [challenge_basic; ok_200] "user" "pass"))
  /\ basicAuthStr
       (run_op (OpRequestURL example_url)
          (mock_client [challenge_basic; ok_200] "user" "pass"))
     = "dXNlcjpwYXNz".
Proof.
  split.
  - apply (proj1 (cache_invariant (H := scripted))). left. reflexivity.
  - vm_compute. reflexivity.
Defined.

Lemma getBasicAuthStr_memoized_witness :
  exists c1,
    getBasicAuthStr (mock_client [] "user" "pass")
    = (Some (EncodeToString ("user" +:+ ":" +:+ "pass")), c1,
       [Encoded ("user" +:+ ":" +:+ "pass")])
    /\ basicAuthStr c1 = EncodeToString ("user" +:+ ":" +:+ "pass")
    /\ forall c2,
        reachable c1 c2 ->
        getBasicAuthStr c2
        = (Some (EncodeToString ("user" +:+ ":" +:+ "pass")), c2, [])
        /\ basicAuthStr c2 = basicAuthStr c1.
Proof.
  apply (getBasicAuthStr_memoized (mock_client [] "user" "pass")). reflexivity.
Defined.

(** ** Further runs *)

(** Two calls of getBasicAuthStr: one call to the encoder. *)
Example getBasicAuthStr_twice :
  let c := mock_client [] "user" "pass" in
  let '(a1, c1, t1) := getBasicAuthStr c in
  let '(a2, c2, t2) := getBasicAuthStr c1 in
  a1 = Some "dXNlcjpwYXNz" /\ a2 = a1 /\ c2 = c1
  /\ encodings (t1 ++ t2) = ["user:pass"].
Proof. vm_compute. repeat split. Qed.

(** A basic challenge and no credentials: one send, the 401 comes back. *)
Example RequestURL_without_credentials :
  let c := mock_client [challenge_basic; ok_200] "" "" in
  let '(r, c', t) := RequestURL example_url c in
  r = Some challenge_basic /\ sends t = [GET_request c example_url]
  /\ Client c' = mock [ok_200].
Proof. vm_compute. repeat split. Qed.

(** A nil response with a nil error makes the call panic after one send. *)
Example RequestURL_nil_nil :
  let c := mock_client [(None, None)] "user" "pass" in
  let '(r, _, t) := RequestURL example_url c in
  r = None /\ length (sends t) = 1%nat.
Proof. vm_compute. repeat split. Qed.

(** The scheme token BAS, U+0130, C is lowered to basic by Go, and the
    credentials are sent. *)
Example RequestURL_dotted_capital :
  let challenge : DoResult :=
    (Some (response 401 {[ "Www-Authenticate" := [dotted_capital_token +:+ " realm=x"] ]}),
     None) in
  let c := mock_client [challenge; ok_200] "user" "pass" in
  let '(r, _, t) := RequestURL example_url c in
  r = Some ok_200 /\ length (sends t) = 2%nat.
Proof. vm_compute. repeat split. Qed.

(** SetCheckRedirect on the mock and on an http.Client. *)
Example SetCheckRedirect_mock :
  let c := mock_client [ok_200] "user" "pass" in
  SetCheckRedirect (Some "no redirects") c
  = (Some tt, c, [Logged LogError "Unable to set CheckRedirect, type assertion failed."]).
Proof. reflexivity. Qed.

Example SetCheckRedirect_concrete :
  let c := concrete_client [ok_200] in
  let '(_, c', t) := SetCheckRedirect (Some "no redirects") c in
  Client c' = Concrete {| CheckRedirect := Some "no redirects"; net := [ok_200] |}
  /\ t = [].
Proof. vm_compute. repeat split. Qed.

(** ** The further properties on the scripted executor *)

Lemma RequestURL_nothing_to_offer_witness :
  exists c' t,
    RequestURL example_url (mock_client [challenge_basic; ok_200] "" "")
    = (Some challenge_basic, c', t)
    /\ sends t = [GET_request (mock_client [challenge_basic; ok_200] "" "") example_url]
    /\ logs t = [] /\ encodings t = []
    /\ basicAuthStr c' = basicAuthStr (mock_client [challenge_basic; ok_200] "" "").
Proof.
  apply (RequestURL_nothing_to_offer (mock_client [challenge_basic; ok_200] "" "")
           example_url (mock [ok_200]) (response 401 basic_challenge)).
  - reflexivity.
  - reflexivity.
  - reflexivity.
  - split; reflexivity.
Defined.

Lemma RequestURL_credentials_only_when_challenged_witness :
  ~ no_credentials (mock_client [challenge_basic; ok_200] "user" "pass")
  /\ sends (RequestURL example_url
              (mock_client [challenge_basic; ok_200] "user" "pass")).2
     = [GET_request (mock_client [challenge_basic; ok_200] "user" "pass") example_url;
        auth_request (mock_client [challenge_basic; ok_200] "user" "pass") example_url]
  /\ exists e1 resp,
      Do (Client (mock_client [challenge_basic; ok_200] "user" "pass"))
        (GET_request (mock_client [challenge_basic; ok_200] "user" "pass") example_url)
      = (e1, (Some resp, None))
      /\ StatusCode resp = 401
      /\ ToLower (scheme_token (challenge_of resp)) = "basic".
Proof.
  apply (RequestURL_credentials_only_when_challenged
           (mock_client [challenge_basic; ok_200] "user" "pass") example_url
           (auth_request (mock_client [challenge_basic; ok_200] "user" "pass")
              example_url)).
  - apply elem_of_cons. right. apply elem_of_cons. left. reflexivity.
  - eexists. vm_compute. reflexivity.
Defined.

Lemma RequestURL_returns_last_send_witness :
  ((Do (Client (mock_client [refused] "user" "pass"))
      (GET_request (mock_client [refused] "user" "pass") example_url)
    = (Client (set_Client (mock []) (mock_client [refused] "user" "pass")), refused)
    /\ sends [Sent (GET_request (mock_client [refused] "user" "pass") example_url)]
       = [GET_request (mock_client [refused] "user" "pass") example_url])
   \/ (exists e1 resp,
         Do (Client (mock_client [refused] "user" "pass"))
           (GET_request (mock_client [refused] "user" "pass") example_url)
         = (e1, (Some resp, None))
         /\ StatusCode resp = 401
         /\ Do e1 (auth_request (mock_client [refused] "user" "pass") example_url)
            = (Client (set_Client (mock []) (mock_client [refused] "user" "pass")),
               refused)
         /\ sends [Sent (GET_request (mock_client [refused] "user" "pass") example_url)]
            = [GET_request (mock_client [refused] "user" "pass") example_url;
               auth_request (mock_client [refused] "user" "pass") example_url]))
  /\ (refused.2 <> None ->
      logs [Sent (GET_request (mock_client [refused] "user" "pass") example_url)] = []).
Proof.
  apply (RequestURL_returns_last_send (mock_client [refused] "user" "pass")
           example_url refused
           (set_Client (mock []) (mock_client [refused] "user" "pass"))
           [Sent (GET_request (mock_client [refused] "user" "pass") example_url)]).
  reflexivity.
Defined.

Lemma RequestURL_logs_only_unsupported_witness :
  exists e1 resp,
    Do (Client (mock_client [challenge_digest] "user" "pass"))
      (GET_request (mock_client [challenge_digest] "user" "pass") example_url)
    = (e1, (Some resp, None))
    /\ StatusCode resp = 401
    /\ challenge_of resp <> EmptyString
    /\ ~ no_credentials (mock_client [challenge_digest] "user" "pass")
    /\ ToLower (scheme_token (challenge_of resp)) <> "basic"
    /\ RequestURL example_url (mock_client [challenge_digest] "user" "pass")
       = (Some (Some resp, None),
          set_Client e1 (mock_client [challenge_digest] "user" "pass"),
          [Sent (GET_request (mock_client [challenge_digest] "user" "pass") example_url);
           Logged LogInfo
             ("Unsupported WWW-Authenticate Method: "
              +:+ scheme_token (challenge_of resp))]).
Proof.
  apply (RequestURL_logs_only_unsupported
           (mock_client [challenge_digest] "user" "pass") example_url).
  vm_compute. discriminate.
Defined.

Lemma addAuthHeader_ignores_parameters_witness :
  addAuthHeader (GET_request (mock_client [] "user" "pass") example_url)
    "Basic realm=a" (mock_client [] "user" "pass")
  = addAuthHeader (GET_request (mock_client [] "user" "pass") example_url)
      "Basic realm=b, charset=UTF-8" (mock_client [] "user" "pass").
Proof.
  apply (addAuthHeader_ignores_parameters
           (GET_request (mock_client [] "user" "pass") example_url)
           "Basic realm=a" "Basic realm=b, charset=UTF-8"
           (mock_client [] "user" "pass")).
  reflexivity.
Defined.

Lemma Authorization_value_alphabet_witness :
  exists req' c' t a,
    addAuthHeader (GET_request (mock_client [] "user" "pass") example_url)
      "Basic realm=x" (mock_client [] "user" "pass")
    = (Some (req', None), c', t)
    /\ req_Header req' !! "Authorization"
       = Some (default []
                 (req_Header (GET_request (mock_client [] "user" "pass") example_url)
                  !! "Authorization")
               ++ ["Basic " +:+ a])
    /\ a <> EmptyString
    /\ all_bytes base64_byte a = true.
Proof.
  apply (Authorization_value_alphabet
           (GET_request (mock_client [] "user" "pass") example_url)
           "Basic realm=x" (mock_client [] "user" "pass")).
  - left. reflexivity.
  - reflexivity.
Defined.

Lemma RequestURL_never_encodes_again_witness :
  encodings
    (RequestURL example_url
       (run_op (OpRequestURL example_url)
          (filled_client [ok_200; challenge_basic; ok_200]))).2 = []
  /\ basicAuthStr
       (client_after (RequestURL example_url)
          (run_op (OpRequestURL example_url)
             (filled_client [ok_200; challenge_basic; ok_200])))
     = basicAuthStr (filled_client [ok_200; challenge_basic; ok_200]).
Proof.
  apply (RequestURL_never_encodes_again
           (filled_client [ok_200; challenge_basic; ok_200])
           (run_op (OpRequestURL example_url)
              (filled_client [ok_200; challenge_basic; ok_200]))
           example_url).
  - discriminate.
  - apply reachable_op, reachable_new.
Defined.

Lemma UserAgent_fixed_witness :
  UserAgent
    (run_op OpGetBasicAuthStr
       (mock_client [challenge_basic; ok_200] "user" "pass"))
  = UserAgent (mock_client [challenge_basic; ok_200] "user" "pass")
  /\ Forall
       (fun req =>
          Header_Get (req_Header req) "User-Agent"
          = UserAgent (mock_client [challenge_basic; ok_200] "user" "pass"))
       (sends (RequestURL example_url
                 (run_op OpGetBasicAuthStr
                    (mock_client [challenge_basic; ok_200] "user" "pass"))).2).
Proof.
  apply (UserAgent_fixed (mock_client [challenge_basic; ok_200] "user" "pass")
           (run_op OpGetBasicAuthStr
              (mock_client [challenge_basic; ok_200] "user" "pass"))
           example_url).
  apply reachable_op, reachable_new.
Defined.

(** ** The scheme token BAS, U+0130, C *)

(** C3, at the input where the code departs from it. The scheme token
    BAS, U+0130, C is not basic in any letter case: it holds a rune that
    is no ASCII letter. strings.ToLower lowers that rune to the letter i,
    the test of addAuthHeader succeeds, and RequestURL, instead of logging
    and returning the 401 after one send, sends the credentials in a
    second request, logs nothing, and returns the second response. *)
Theorem RequestURL_dotted_capital_sends_credentials :
  exists resp c' t,
    challenge_dotted_capital = (Some resp, None)
    /\ StatusCode resp = 401
    /\ scheme_token (challenge_of resp) = dotted_capital_token
    /\ all_bytes is_ascii (scheme_token (challenge_of resp)) = false
    /\ EqualFold_ascii (scheme_token (challenge_of resp)) "basic" = false
    /\ ToLower (scheme_token (challenge_of resp)) = "basic"
    /\ ~ no_credentials (mock_client [challenge_dotted_capital; ok_200] "user" "pass")
    /\ RequestURL example_url
         (mock_client [challenge_dotted_capital; ok_200] "user" "pass")
       = (Some ok_200, c', t)
    /\ length (sends t) = 2%nat
    /\ map (fun req => Header_Get (req_Header req) "Authorization") (sends t)
       = [""; "Basic dXNlcjpwYXNz"]
    /\ logs t = [].
Proof.
  eexists _, _, _. split; [reflexivity|].
  split; [reflexivity|]. split; [vm_compute; reflexivity|].
  split; [vm_compute; reflexivity|]. split; [vm_compute; reflexivity|].
  split; [vm_compute; reflexivity|].
  split; [intros [Hu _]; discriminate Hu|].
  split; [vm_compute; reflexivity|].
  split; [vm_compute; reflexivity|]. split; vm_compute; reflexivity.
Qed.

(** ** SetCheckRedirect, the panics and the ASCII tokens on the executors *)

Lemma SetCheckRedirect_effect_witness :
  (exists c',
      client_after (SetCheckRedirect (Some "no redirects")) (concrete_client [ok_200]) = c'
      /\ Client c'
         = Concrete {| CheckRedirect := Some "no redirects"; net := [ok_200] |}
      /\ basicAuthStr c' = basicAuthStr (concrete_client [ok_200]))
  /\ (exists c',
        client_after (SetCheckRedirect (Some "no redirects"))
          (mock_client [ok_200] "user" "pass") = c'
        /\ c' = mock_client [ok_200] "user" "pass").
Proof.
  split.
  - destruct (SetCheckRedirect_effect (concrete_client [ok_200]) (Some "no redirects"))
      as (c' & t & Hrun & _ & _ & _ & Hcache & _ & Hexec).
    exists c'. unfold client_after. rewrite Hrun. split; [reflexivity|].
    split; [|exact Hcache].
    destruct Hexec as (_ & cli' & HC & Hp & Hn & _). rewrite HC.
    destruct cli' as [p n]. cbn in Hp, Hn. now subst.
  - destruct (SetCheckRedirect_effect (mock_client [ok_200] "user" "pass")
                (Some "no redirects"))
      as (c' & t & Hrun & _ & _ & _ & _ & _ & Hexec).
    exists c'. unfold client_after. rewrite Hrun. split; [reflexivity|].
    exact (proj1 Hexec).
Defined.

Lemma RequestURL_panic_cases_witness :
  RequestURL spaced_host_url (strict_client [ok_200]) = (None, strict_client [ok_200], [])
  /\ (exists c' t,
        RequestURL example_url (mock_client [(None, None); ok_200] "user" "pass")
        = (None, c', t)
        /\ sends t
           = [GET_request (mock_client [(None, None); ok_200] "user" "pass") example_url]
        /\ Client c' = mock [ok_200]
        /\ basicAuthStr c'
           = basicAuthStr (mock_client [(None, None); ok_200] "user" "pass"))
  /\ (exists c' t,
        RequestURL example_url (mock_client [challenge_basic; (None, None)] "user" "pass")
        = (Some (None, None), c', t)
        /\ sends t
           = [GET_request (mock_client [challenge_basic; (None, None)] "user" "pass")
                example_url;
              auth_request (mock_client [challenge_basic; (None, None)] "user" "pass")
                example_url]
        /\ Client c' = mock []).
Proof.
  split; [|split].
  - apply (proj1 (RequestURL_panic_cases (H := strict) (strict_client [ok_200])
                    spaced_host_url)).
    reflexivity.
  - apply (proj1 (proj2 (RequestURL_panic_cases
                           (mock_client [(None, None); ok_200] "user" "pass")
                           example_url)) (mock [ok_200]));
      reflexivity.
  - apply (proj2 (proj2 (RequestURL_panic_cases
                           (mock_client [challenge_basic; (None, None)] "user" "pass")
                           example_url))
             (mock [(None, None)]) (response 401 basic_challenge) (mock [])).
    + reflexivity.
    + reflexivity.
    + reflexivity.
    + vm_compute. reflexivity.
    + intros [Hu _]. discriminate Hu.
    + reflexivity.
Defined.

